(** * iac-activemq: lifecycle and health orchestration (main.go)

    A shallow embedding of [src/main.go] and the properties of its
    specification.  Go values of type [interface{}] are a sum type, Go maps
    with string keys are [gmap string _], the package-level variables are the
    fields of a [State] record threaded through a small state and panic monad,
    and the collaborators from other packages (file system, JSON decoder,
    broker client, HTTP client, database driver) are the fields of an
    [External] record the functions are parameterised by. *)

From Stdlib Require Import ZArith List String Bool Lia.
From Stdlib Require Import Floats.SpecFloat.
From Stdlib Require Import DecimalString.
From stdpp Require Import base option list strings functions relations gmap.

Open Scope string_scope.
Open Scope list_scope.
Open Scope Z_scope.

(** ** Dynamic values *)

(** Modelled from the spec: the three constants [health.StatusOK],
    [health.StatusPartiallyAvailable] and [health.StatusUnavailable] are
    declared in package [github.com/mdaxf/iac/health], which is not part of
    the sources; the spec gives the overall status as the enumeration
    {OK, PartiallyAvailable, Unavailable}. *)
Inductive Status : Type :=
| StatusOK
| StatusPartiallyAvailable
| StatusUnavailable.

#[global] Instance Status_eq_dec : EqDecision Status.
Proof. solve_decision. Defined.

(** Go's [error]: [nil] is [None], a non-nil error carries its message. *)
Definition error : Type := string.

(** What an [interface{}] holds in this program: the dynamic types produced
    by decoding JSON into [map[string]interface{}] ([nil], [bool],
    [float64], [string]) and the status constant stored by
    [CheckServiceStatus]. *)
Inductive value : Type :=
| VNil
| VBool (b : bool)
| VFloat64 (f : spec_float)
| VString (s : string)
| VStatus (s : Status).

(** ** The broker registry *)

(** [activemq.ActiveMQconfig]: only [Host] is read by main.go; the other
    broker settings travel through as an opaque payload. *)
Record ActiveMQconfig : Type := {
  Host : string;
  Settings : list (string * string)
}.

(** [*activemq.ActiveMQ] as far as main.go touches it.  [Conn] is the
    connection handle: [None] is Go's [nil]. *)
Record ActiveMQ : Type := {
  Config : ActiveMQconfig;
  Conn : option nat;
  conn_AppServer : string;   (* field AppServer *)
  conn_ApiKey : string       (* field ApiKey *)
}.

Definition isLive (c : ActiveMQ) : bool :=
  match Conn c with Some _ => true | None => false end.

(** ** CheckServiceStatus (main.go 157-182) *)

(** Loop state of [CheckServiceStatus]: the result map and the two
    counters.  The counters are Go [int]s; they count elements of one slice,
    whose length is itself an [int], so they never wrap. *)
Record StatusAcc : Type := {
  acc_result : gmap string value;
  OKCount : Z;
  UnavailableCount : Z
}.

(** Body of [for _, activemqconn := range ActiveMQs]. *)
Definition CheckServiceStatus_body (a : StatusAcc) (activemqconn : ActiveMQ)
  : StatusAcc :=
  match Conn activemqconn with
  | Some _ =>
      {| acc_result := <[Host (Config activemqconn) := VBool true]> (acc_result a);
         OKCount := OKCount a + 1;
         UnavailableCount := UnavailableCount a |}
  | None =>
      {| acc_result := <[Host (Config activemqconn) := VBool false]> (acc_result a);
         OKCount := OKCount a;
         UnavailableCount := UnavailableCount a + 1 |}
  end.

Definition CheckServiceStatus_loop (ActiveMQs : list ActiveMQ) : StatusAcc :=
  foldl CheckServiceStatus_body
        {| acc_result := ∅; OKCount := 0; UnavailableCount := 0 |} ActiveMQs.

(** The if / else-if / else chain after the loop. *)
Definition OverAllStatus (okCount unavailableCount : Z) : Status :=
  if okCount =? 0 then StatusUnavailable
  else if (0 <? unavailableCount) && (0 <? okCount) then StatusPartiallyAvailable
  else StatusOK.

Definition CheckServiceStatus (ActiveMQs : list ActiveMQ)
  : gmap string value * option error :=
  let a := CheckServiceStatus_loop ActiveMQs in
  let result := acc_result a in
  (<["OverallStatus" := VStatus (OverAllStatus (OKCount a) (UnavailableCount a))]> result,
   None).

(** The status stored under the key ["OverallStatus"]. *)
Definition overallStatus (result : gmap string value) : option Status :=
  match result !! "OverallStatus" with
  | Some (VStatus s) => Some s
  | _ => None
  end.

(** N and K of the spec: registry size and number of live entries. *)
Definition liveCount (reg : list ActiveMQ) : Z :=
  Z.of_nat (length (filter (fun c => isLive c = true) reg)).

Definition registrySize (reg : list ActiveMQ) : Z := Z.of_nat (length reg).

(** Liveness of the last registry entry whose host is [h], if any: a later
    assignment to [result[h]] overwrites an earlier one. *)
Fixpoint lastLiveness (h : string) (reg : list ActiveMQ) : option bool :=
  match reg with
  | [] => None
  | c :: rest =>
      match lastLiveness h rest with
      | Some b => Some b
      | None => if decide (Host (Config c) = h) then Some (isLive c) else None
      end
  end.

(** ** Configuration and collaborators *)

(** [activemq.ActiveMQconfigs], the decoded broker-configuration file. *)
Record ActiveMQconfigs : Type := {
  ApiKey : string;
  configs_ActiveMQs : list ActiveMQconfig   (* field ActiveMQs *)
}.

(** [config.GlobalConfig]: the three untyped maps main.go reads. *)
Record GlobalConfig : Type := {
  AppServer : gmap string value;
  DatabaseConfig : gmap string value;
  DocumentConfig : gmap string value
}.

(** Resource handles.  A [*sql.DB] and a [signalr.Client] are opaque; a
    [*documents.DocDB] points to a struct whose [MongoDBClient] field main.go
    dereferences. *)
Definition sqlDB : Type := nat.
Definition Client : Type := nat.
Record DocDB : Type := { MongoDBClient : nat }.

(** The variables of package [databases] ([dbconn]) set by
    [initializeDatabase]. *)
Record DbConn : Type := {
  DatabaseType : string;
  DatabaseConnection : string;
  MaxIdleConns : Z;
  MaxOpenConns : Z;
  dbconn_DB : option sqlDB   (* dbconn.DB *)
}.

(** [context.Context] values: [context.Background()] has no deadline. *)
Inductive Context : Type :=
| Background
| WithTimeout (nanoseconds : Z).


Inductive Level : Type := LDebug | LError.

(** What the process does to the outside world, in program order.  A log
    entry carries the line of main.go that wrote it.  Informational
    [ilog.Debug] calls (configuration dumps, URLs) touch no program state and
    are left out; the ones reporting a failure are kept. *)
#[warnings="-register-all"]
Inductive Event : Type :=
| Log (lvl : Level) (line : nat) (msg : string)
| DBClose                          (* DB.Close() *)
| MongoDisconnect                  (* MongoDBClient.Disconnect(nil) *)
| BusStop                          (* signalr.Client.Stop() *)
| CallSubscribes (host : string)   (* activemqconn.Subscribes() *)
| WebService (url method : string) (* com.CallWebService *)
| Go (body : list Event)           (* go func() { ... }() and what it will do *)
| ServerShutdown (ctx : Context)   (* monitorServer.Shutdown(ctx) *)
| Sleep (nanoseconds : Z).         (* time.Sleep *)

(** The entries of the global map [nodecomponent], filled once by [main]
    (lines 82-84).  ["DB"] and ["DocDB"] hold typed pointers, [None] being the
    nil pointer; ["IACMessageBusClient"] holds an interface value, [None]
    being the nil interface. *)
Record Components : Type := {
  nc_DB : option sqlDB;
  nc_DocDB : option DocDB;
  nc_IACMessageBusClient : option Client
}.

(** [*http.Server] as created at line 404. *)
Record Server : Type := { Addr : string }.

(** The package-level variables, the variables of [dbconn], and the trace
    of events so far (newest last).  The map [nodedata] only feeds the
    payload of outbound messages and is left out. *)
Record State : Type := {
  ActiveMQs : list ActiveMQ;
  nodecomponent : Components;
  monitorPort : Z;
  monitorServer : option Server;
  dbconn : DbConn;
  trace : list Event
}.

(** Result of [health.CheckNodeHealth], opaque to main.go. *)
Definition HealthResult : Type := gmap string value.

(** The collaborators from other packages.  Each field is the observable
    result of the call named in its comment. *)
Record External : Type := {
  (* ioutil.ReadFile(path) *)
  ReadFile : string -> string + error;
  (* json.Unmarshal(data, &activemqconfigs) on a zero ActiveMQconfigs: the
     struct as the decoder leaves it, and the error it returns.  On a type
     mismatch the decoder skips the offending value, decodes the rest and
     returns the first such error, so both components can be non-trivial. *)
  Unmarshal : string -> ActiveMQconfigs * option error;
  (* activemq.NewActiveMQConnectionExternal(cfg, DocDB, DB, client) *)
  NewActiveMQConnectionExternal :
    ActiveMQconfig -> option DocDB -> option sqlDB -> option Client -> ActiveMQ;
  (* the connection object after activemqconn.Subscribes() *)
  Subscribes : ActiveMQ -> ActiveMQ;
  (* com.ConverttoString *)
  ConverttoString : option value -> string;
  (* com.CallWebService(url, method, data, headers): the error returned *)
  CallWebService : string -> string -> option error;
  (* health.CheckNodeHealth *)
  CheckNodeHealth : option sqlDB -> nat -> option Client -> HealthResult;
  (* dbconn.ConnectDB(): the value of dbconn.DB afterwards, and the error *)
  ConnectDB : DbConn -> option sqlDB * option error;
  (* int(v) for a float64 that no int can represent: Go leaves the result
     to the implementation *)
  int_unrepresentable : spec_float -> Z;
  (* the TCP ports on which net.Listen fails *)
  occupiedPorts : gset Z
}.

(** ** The state and panic monad *)

(** How a Go function call ends: it returns, it panics, or it ends the
    process with [os.Exit]. *)
Inductive Outcome (A : Type) : Type :=
| Ret (a : A)
| Panic (msg : string)
| Exit (code : Z).
Arguments Ret {A} a.
Arguments Panic {A} msg.
Arguments Exit {A} code.

Definition M (A : Type) : Type := State -> Outcome A * State.

#[global] Instance M_ret : MRet M := fun A a st => (Ret a, st).

#[global] Instance M_bind : MBind M := fun A B f m st =>
  match m st with
  | (Ret a, st') => f a st'
  | (Panic msg, st') => (Panic msg, st')
  | (Exit code, st') => (Exit code, st')
  end.

Definition get : M State := fun st => (Ret st, st).

Definition panic {A : Type} (msg : string) : M A := fun st => (Panic msg, st).

Definition os_Exit {A : Type} (code : Z) : M A := fun st => (Exit code, st).

Definition emit (e : Event) : M unit := fun st =>
  (Ret tt,
   {| ActiveMQs := ActiveMQs st; nodecomponent := nodecomponent st;
      monitorPort := monitorPort st; monitorServer := monitorServer st;
      dbconn := dbconn st; trace := trace st ++ [e] |}).

Definition set_ActiveMQs (l : list ActiveMQ) : M unit := fun st =>
  (Ret tt,
   {| ActiveMQs := l; nodecomponent := nodecomponent st;
      monitorPort := monitorPort st; monitorServer := monitorServer st;
      dbconn := dbconn st; trace := trace st |}).

Definition set_monitorPort (p : Z) : M unit := fun st =>
  (Ret tt,
   {| ActiveMQs := ActiveMQs st; nodecomponent := nodecomponent st;
      monitorPort := p; monitorServer := monitorServer st;
      dbconn := dbconn st; trace := trace st |}).

Definition set_monitorServer (s : option Server) : M unit := fun st =>
  (Ret tt,
   {| ActiveMQs := ActiveMQs st; nodecomponent := nodecomponent st;
      monitorPort := monitorPort st; monitorServer := s;
      dbconn := dbconn st; trace := trace st |}).

(** An assignment to a variable of package [dbconn]. *)
Definition update_dbconn (f : DbConn -> DbConn) : M unit := fun st =>
  (Ret tt,
   {| ActiveMQs := ActiveMQs st; nodecomponent := nodecomponent st;
      monitorPort := monitorPort st; monitorServer := monitorServer st;
      dbconn := f (dbconn st); trace := trace st |}).

Definition ilog_Debug (line : nat) (msg : string) : M unit := emit (Log LDebug line msg).
Definition ilog_Error (line : nat) (msg : string) : M unit := emit (Log LError line msg).

(** [if cond { body }] *)
Definition when (cond : bool) (body : M unit) : M unit :=
  if cond then body else mret tt.

(** [for _, x := range l { body }] *)
Fixpoint forRange {A : Type} (l : list A) (body : A -> M unit) : M unit :=
  match l with
  | [] => mret tt
  | x :: rest => body x ;; forRange rest body
  end.

(** [m[k] == nil] on a [map[string]interface{}]: the key is absent or holds
    nil. *)
Definition isNil (v : option value) : bool :=
  match v with
  | None | Some VNil => true
  | Some _ => false
  end.

(** [v.(string)]: panics unless the dynamic type is string. *)
Definition assertString (v : option value) : M string :=
  match v with
  | Some (VString s) => mret s
  | _ => panic "interface conversion: interface {} is not string"
  end.

(** [if err != nil { ilog.Error(fmt.Sprintf(prefix + "%v", err)) }] *)
Definition logIfError (line : nat) (prefix : string) (err : option error) : M unit :=
  match err with
  | Some e => ilog_Error line (prefix +:+ e)
  | None => mret tt
  end.

(** ** HTTP types *)

Record Request : Type := {
  Method : string;
  Header : gmap string (list string)
}.

(** [r.Header.Get(key)]: the first value of the header, [""] if there is
    none. *)
Definition Header_Get (h : gmap string (list string)) (key : string) : string :=
  match h !! key with
  | Some (v :: _) => v
  | _ => ""
  end.

(** What a handler writes: the text of [http.Error], or the JSON encoding
    of its [data] map (for [/health], its [Result] and [ServiceStatus]
    entries). *)
Inductive ResponseBody : Type :=
| BodyText (text : string)
| BodyHealth (Result : HealthResult) (ServiceStatus : gmap string value)
| BodyJSON (data : gmap string value).

Record Response : Type := {
  StatusCode : Z;
  ContentType : string;
  Body : ResponseBody
}.

Definition newline : string := String (Ascii.ascii_of_nat 10) EmptyString.

(** [http.Error(w, msg, code)] *)
Definition http_Error (msg : string) (code : Z) : Response :=
  {| StatusCode := code;
     ContentType := "text/plain; charset=utf-8";
     Body := BodyText (msg +:+ newline) |}.

(** [json.NewEncoder(w).Encode(data)] after setting the content type; the
    first write sends status 200. *)
Definition json_Response (body : ResponseBody) : Response :=
  {| StatusCode := 200; ContentType := "application/json"; Body := body |}.

(** Decimal rendering of an integer, the [%d] verb. *)
Definition Z_to_string (z : Z) : string := NilZero.string_of_int (Z.to_int z).

(** ** getAvailablePort (main.go 461-470) *)

(** [for port := minPort; port <= maxPort; port++]: [n] bounds the number
    of iterations left. *)
Fixpoint getAvailablePort_loop (occupied : gset Z) (n : nat) (port maxPort : Z)
  : option Z :=
  match n with
  | O => None
  | S n' =>
      if port <=? maxPort then
        if bool_decide (port ∈ occupied)
        then getAvailablePort_loop occupied n' (port + 1) maxPort
        else Some port
      else None
  end.

Definition getAvailablePort (occupied : gset Z) (minPort maxPort : Z)
  : Z * option error :=
  match getAvailablePort_loop occupied (Z.to_nat (maxPort - minPort + 1)) minPort maxPort with
  | Some port => (port, None)
  | None =>
      (0, Some ("no available port found in the range " +:+ Z_to_string minPort
                +:+ "-" +:+ Z_to_string maxPort))
  end.

(** ** float64 to int *)

(** The integer part of a finite float64, rounding toward zero. *)
Definition truncate (f : spec_float) : option Z :=
  match f with
  | S754_zero _ => Some 0
  | S754_finite s m e =>
      let a := if 0 <=? e then Z.pos m * 2 ^ e else Z.pos m / 2 ^ (- e) in
      Some (if s then - a else a)
  | S754_infinity _ | S754_nan => None
  end.

Section Program.
Context (ext : External).

(** [int(v)] for [v float64], with a 64-bit [int]. *)
Definition float64_to_int (v : spec_float) : Z :=
  match truncate v with
  | Some z =>
      if (- 2 ^ 63 <=? z) && (z <? 2 ^ 63) then z else int_unrepresentable ext v
  | None => int_unrepresentable ext v
  end.

(** *** initializeActiveMQConnection (main.go 193-226) *)

(** The registry holds pointers, so what [Subscribes] does to the new
    connection object shows in its registry slot, the last one. *)
Definition callSubscribes (activemqconn : ActiveMQ) : M unit :=
  st ← get;
  set_ActiveMQs (<[Nat.pred (length (ActiveMQs st)) := Subscribes ext activemqconn]>
                   (ActiveMQs st));;
  emit (CallSubscribes (Host (Config activemqconn))).

Definition initializeActiveMQConnection (gconfig : GlobalConfig)
    (DB : option sqlDB) (DocDB : option DocDB) (IACMessageBusClient : option Client)
  : M unit :=
  match ReadFile ext "activemqconfig.json" with
  | inr err =>
      ilog_Debug 204 ("failed to read configuration file: " +:+ err)
      (* return *)
  | inl data =>
      let '(activemqconfigs, err) := Unmarshal ext data in
      match err with
      | Some e => ilog_Debug 212 ("failed to unmarshal the configuration file: " +:+ e)
      | None => mret tt
      end;;
      forRange (configs_ActiveMQs activemqconfigs) (fun activemqcfg =>
        let activemqconn :=
          NewActiveMQConnectionExternal ext activemqcfg DocDB DB IACMessageBusClient in
        let activemqconn :=
          {| Config := Config activemqconn; Conn := Conn activemqconn;
             conn_AppServer := ConverttoString ext (AppServer gconfig !! "url");
             conn_ApiKey := ApiKey activemqconfigs |} in
        st ← get;
        set_ActiveMQs (ActiveMQs st ++ [activemqconn]);;
        callSubscribes activemqconn)
  end.

(** *** HeartBeat (main.go 123-155) *)

Definition HeartBeat (gconfig : GlobalConfig)
    (DB : option sqlDB) (DocDB : option DocDB) (IACMessageBusClient : option Client)
  : M unit :=
  let appHeartBeatUrl :=
    ConverttoString ext (AppServer gconfig !! "url") +:+ "/IACComponents/heartbeat" in
  match DocDB with
  | None => panic "invalid memory address or nil pointer dereference"
  | Some doc =>
      let result := CheckNodeHealth ext DB (MongoDBClient doc) IACMessageBusClient in
      st ← get;
      let '(activemqsresult, err) := CheckServiceStatus (ActiveMQs st) in
      logIfError 134 "HeartBeat error: " err;;
      emit (WebService appHeartBeatUrl "POST");;
      logIfError 150 "HeartBeat error: " (CallWebService ext appHeartBeatUrl "POST")
  end.

(** *** startMonitorServer (main.go 382-459) *)

(** Lines 383-404: pick the port and create the server.  The error of
    [getAvailablePort] is logged and the function goes on with port 0. *)
Definition startMonitorServer : M unit :=
  let '(port, err) := getAvailablePort (occupiedPorts ext) 8800 8900 in
  set_monitorPort port;;
  logIfError 386 "Failed to get an available port: " err;;
  set_monitorServer (Some {| Addr := ":" +:+ Z_to_string port |}).

(** What the [/health] handler does once both checks have passed
    (lines 414-430). *)
Definition healthBody : M Response :=
  st ← get;
  let nc := nodecomponent st in
  match nc_DocDB nc with
  | None => panic "invalid memory address or nil pointer dereference"
  | Some doc =>
      match nc_IACMessageBusClient nc with
      | None => panic "interface conversion: interface is nil, not signalr.Client"
      | Some bus =>
          let result := CheckNodeHealth ext (nc_DB nc) (MongoDBClient doc) (Some bus) in
          let '(activemqsresult, err) := CheckServiceStatus (ActiveMQs st) in
          logIfError 420 "HeartBeat error: " err;;
          mret (json_Response (BodyHealth result activemqsresult))
      end
  end.

(** The handler registered for [/health] (lines 405-431). *)
Definition healthHandler (gconfig : GlobalConfig) (r : Request) : M Response :=
  if negb (String.eqb (Method r) "GET") then
    mret (http_Error "Method not allowed" 405)
  else
    key ← assertString (AppServer gconfig !! "apikey");
    if negb (String.eqb (Header_Get (Header r) "Authorization") ("apikey " +:+ key)) then
      mret (http_Error "Unauthorized" 401)
    else healthBody.

(** What the [/reloadconfig] handler does once both checks have passed
    (lines 441-451). *)
Definition reloadconfigBody (gconfig : GlobalConfig) : M Response :=
  st ← get;
  let nc := nodecomponent st in
  match nc_IACMessageBusClient nc with
  | None => panic "interface conversion: interface is nil, not signalr.Client"
  | Some bus =>
      initializeActiveMQConnection gconfig (nc_DB nc) (nc_DocDB nc) (Some bus);;
      mret (json_Response (BodyJSON {[ "Status" := VString "Success" ]}))
  end.

(** The handler registered for [/reloadconfig] (lines 432-452). *)
Definition reloadconfigHandler (gconfig : GlobalConfig) (r : Request) : M Response :=
  if negb (String.eqb (Method r) "POST") then
    mret (http_Error "Method not allowed" 405)
  else
    key ← assertString (AppServer gconfig !! "apikey");
    if negb (String.eqb (Header_Get (Header r) "Authorization") ("apikey " +:+ key)) then
      mret (http_Error "Unauthorized" 401)
    else reloadconfigBody gconfig.

(** *** waitForTerminationSignal (main.go 228-281) *)

(** The three guarded calls of lines 233-243, which lines 262-272 repeat
    inside the goroutine. *)
Definition closeResources : M unit :=
  st ← get;
  let nc := nodecomponent st in
  when (bool_decide (is_Some (nc_DB nc))) (emit DBClose);;
  when (bool_decide (is_Some (nc_DocDB nc))) (emit MongoDisconnect);;
  match nc_IACMessageBusClient nc with
  | None => panic "interface conversion: interface is nil, not signalr.Client"
  | Some _ => emit BusStop
  end.

(** [go func() { body }()]: the goroutine is started here; the events of
    its body are recorded with it, their interleaving with the rest is
    not. *)
Definition go (body : M unit) : M unit :=
  st ← get;
  let st0 := {| ActiveMQs := ActiveMQs st; nodecomponent := nodecomponent st;
                monitorPort := monitorPort st; monitorServer := monitorServer st;
                dbconn := dbconn st; trace := [] |} in
  emit (Go (trace (body st0).2)).

(** From the arrival of the signal ([<-c]) on. *)
Definition waitForTerminationSignal (gconfig : GlobalConfig) : M unit :=
  closeResources;;
  let appHeartBeatUrl :=
    ConverttoString ext (AppServer gconfig !! "url") +:+ "/IACComponents/close" in
  emit (WebService appHeartBeatUrl "POST");;
  logIfError 259 "HeartBeat error: " (CallWebService ext appHeartBeatUrl "POST");;
  go closeResources;;
  st ← get;
  when (bool_decide (is_Some (monitorServer st))) (emit (ServerShutdown Background));;
  emit (Sleep (2 * 1000000000));;
  os_Exit 0.

(** *** initializeDatabase (main.go 283-342) *)

(** Lines 313-321 and 324-332: the value of one pool setting. *)
Definition poolSetting (field : option value) (default : Z) : Z :=
  if isNil field then default
  else match field with
       | Some (VFloat64 v) => float64_to_int v
       | _ => default
       end.

Definition initializeDatabase (gconfig : GlobalConfig) : M (option sqlDB) :=
  let databaseconfig := DatabaseConfig gconfig in
  if isNil (databaseconfig !! "type") then
    ilog_Error 298 "initialize Database error: DatabaseType is missing";;
    mret None
  else if isNil (databaseconfig !! "connection") then
    ilog_Error 304 "initialize Database error: DatabaseConnection is missing";;
    mret None
  else
    ty ← assertString (databaseconfig !! "type");
    update_dbconn (fun d =>
      {| DatabaseType := ty; DatabaseConnection := DatabaseConnection d;
         MaxIdleConns := MaxIdleConns d; MaxOpenConns := MaxOpenConns d;
         dbconn_DB := dbconn_DB d |});;
    conn ← assertString (databaseconfig !! "connection");
    update_dbconn (fun d =>
      {| DatabaseType := DatabaseType d; DatabaseConnection := conn;
         MaxIdleConns := MaxIdleConns d; MaxOpenConns := MaxOpenConns d;
         dbconn_DB := dbconn_DB d |});;
    update_dbconn (fun d =>
      {| DatabaseType := DatabaseType d; DatabaseConnection := DatabaseConnection d;
         MaxIdleConns := poolSetting (databaseconfig !! "maxidleconns") 5;
         MaxOpenConns := MaxOpenConns d; dbconn_DB := dbconn_DB d |});;
    update_dbconn (fun d =>
      {| DatabaseType := DatabaseType d; DatabaseConnection := DatabaseConnection d;
         MaxIdleConns := MaxIdleConns d;
         MaxOpenConns := poolSetting (databaseconfig !! "maxopenconns") 10;
         dbconn_DB := dbconn_DB d |});;
    st ← get;
    let '(db, err) := ConnectDB ext (dbconn st) in
    update_dbconn (fun d =>
      {| DatabaseType := DatabaseType d; DatabaseConnection := DatabaseConnection d;
         MaxIdleConns := MaxIdleConns d; MaxOpenConns := MaxOpenConns d;
         dbconn_DB := db |});;
    match err with
    | Some e => ilog_Error 337 ("initialize Database error: " +:+ e);; mret None
    | None => mret db
    end.
End Program.

(** ** The goroutines of main (main.go 40-121) *)

(** [main] runs on the main goroutine and starts three more: the one-shot
    registry setup (lines 94-97), the monitor server (100-103) and the
    heartbeat loop (107-113). *)
Inductive Goroutine : Type := GMain | GRegistry | GMonitor | GHeartbeat.

#[global] Instance Goroutine_eq_dec : EqDecision Goroutine.
Proof. solve_decision. Defined.

(** The statements of [main] and of the three function literals, each one
    atomic step of its goroutine. *)
Inductive Instr : Type :=
| ILoadGlobalConfig              (* 46: config.LoadGlobalConfig() *)
| IInitializeLogger              (* 59: initializeloger(gconfig) *)
| IInitializeDatabase            (* 65: initializeDatabase(ilog, gconfig) *)
| IInitializedDocuments          (* 70: initializedDocuments(ilog, gconfig) *)
| IConnectMessageBus             (* 75: iacmb.Connect(gconfig.SingalRConfig) *)
| ISetComponents                 (* 82-84: nodecomponent[...] = ... *)
| IRegisterCallBack              (* 86-90 *)
| IAdd                           (* wg.Add(1) *)
| IGo (g : Goroutine)            (* go func() { ... }() *)
| IWait                          (* 115: wg.Wait() *)
| IWaitForTerminationSignal      (* 120 *)
| IInitializeActiveMQConnection  (* 96 *)
| IStartMonitorServer            (* 102 *)
| IHeartBeat                     (* 110 *)
| ISleep                         (* 111: time.Sleep(5 * time.Minute) *)
| IDone.                         (* the deferred wg.Done() *)

#[global] Instance Instr_eq_dec : EqDecision Instr.
Proof. solve_decision. Defined.

(** The code of each goroutine.  For the heartbeat this is the body of its
    [for { ... }] loop, which has no exit: the deferred [wg.Done()] of that
    goroutine is never reached. *)
Definition code (g : Goroutine) : list Instr :=
  match g with
  | GMain =>
      [ILoadGlobalConfig; IInitializeLogger;
       IInitializeDatabase; IInitializedDocuments; IConnectMessageBus;
       ISetComponents; IRegisterCallBack;
       IAdd; IGo GRegistry; IAdd; IGo GMonitor; IAdd; IGo GHeartbeat;
       IWait; IWaitForTerminationSignal]
  | GRegistry => [IInitializeActiveMQConnection; IDone]
  | GMonitor => [IStartMonitorServer; IDone]
  | GHeartbeat => [IHeartBeat; ISleep]
  end.

(** What is left to run after a step: the heartbeat loop starts over. *)
Definition continue (g : Goroutine) (rest : list Instr) : list Instr :=
  match g, rest with
  | GHeartbeat, [] => code GHeartbeat
  | _, _ => rest
  end.

(** A scheduler state: what each goroutine has left to run ([None] before
    it is started), the counter of the wait group, and the steps taken so far
    (newest last). *)
Record Sched : Type := {
  pc : Goroutine -> option (list Instr);
  wg : Z;
  history : list (Goroutine * Instr)
}.

Definition initialSched : Sched :=
  {| pc := fun g => match g with GMain => Some (code GMain) | _ => None end;
     wg := 0;
     history := [] |}.

(** One step of goroutine [g], if it can take one.  [wg.Wait()] can only be
    passed when the counter is zero. *)
Definition exec (s : Sched) (g : Goroutine) : option Sched :=
  match pc s g with
  | Some (i :: rest) =>
      let pc' := <[g := Some (continue g rest)]> (pc s) in
      let h' := history s ++ [(g, i)] in
      match i with
      | IAdd => Some {| pc := pc'; wg := wg s + 1; history := h' |}
      | IDone => Some {| pc := pc'; wg := wg s - 1; history := h' |}
      | IGo g' => Some {| pc := <[g' := Some (code g')]> pc'; wg := wg s; history := h' |}
      | IWait =>
          if wg s =? 0 then Some {| pc := pc'; wg := wg s; history := h' |} else None
      | _ => Some {| pc := pc'; wg := wg s; history := h' |}
      end
  | _ => None
  end.

(** The scheduler picks any goroutine that can take a step. *)
Definition step (s s' : Sched) : Prop := exists g, exec s g = Some s'.

Definition reachable (s : Sched) : Prop := rtc step initialSched s.

(** Running a given schedule. *)
Fixpoint run (schedule : list Goroutine) (s : Sched) : option Sched :=
  match schedule with
  | [] => Some s
  | g :: rest => match exec s g with Some s' => run rest s' | None => None end
  end.

(** Every occurrence of [b] in the history comes after an occurrence of
    [a]. *)
Definition precedes (a b : Goroutine * Instr) (h : list (Goroutine * Instr)) : Prop :=
  forall h1 h2, h = h1 ++ b :: h2 -> a ∈ h1.

(** The steps of the resource initialisation. *)
Definition resourceInit : list (Goroutine * Instr) :=
  [(GMain, IInitializeDatabase); (GMain, IInitializedDocuments);
   (GMain, IConnectMessageBus); (GMain, ISetComponents)].

Definition registryPass : Goroutine * Instr := (GRegistry, IInitializeActiveMQConnection).
Definition heartbeatTick : Goroutine * Instr := (GHeartbeat, IHeartBeat).

(** The invariant of the scheduler: [main] is somewhere in its code and its
    past steps are in the history; the other goroutines run their own code
    only; none of them is started before the resources are initialised; and
    the history is ordered accordingly. *)
Record Inv (s : Sched) : Prop := {
  inv_main : exists past rest,
      code GMain = past ++ rest /\ pc s GMain = Some rest
      /\ forall i, i ∈ past -> (GMain, i) ∈ history s;
  inv_code : forall g l i, g <> GMain -> pc s g = Some l -> i ∈ l -> i ∈ code g;
  inv_started : forall g a, g <> GMain -> is_Some (pc s g) ->
                            a ∈ resourceInit -> a ∈ history s;
  inv_order : forall a, a ∈ resourceInit ->
      precedes a registryPass (history s) /\ precedes a heartbeatTick (history s)
}.

(** How often [i] occurs in [l]. *)
Definition occurrences (i : Instr) (l : list Instr) : Z :=
  Z.of_nat (length (filter (eq i) l)).

(** The calls of [wg.Done()] goroutine [g] has made. *)
Definition doneBy (s : Sched) (g : Goroutine) : Z :=
  match pc s g with
  | Some l => 1 - occurrences IDone l
  | None => 0
  end.

(** The invariant that keeps [main] in front of [wg.Wait()]: [main] has
    taken the steps [past], all of them before [wg.Wait()]; a goroutine whose
    [go] statement is still ahead has not been started; and the counter is
    the number of [wg.Add(1)] calls made minus the [wg.Done()] calls of the
    registry and monitor goroutines, the only ones that can make any. *)
Definition WaitInv (s : Sched) : Prop :=
  exists past rest,
    code GMain = past ++ rest /\ pc s GMain = Some rest /\ IWait ∈ rest
    /\ (forall i, (GMain, i) ∈ history s -> i ∈ past)
    /\ (forall g, IGo g ∈ rest -> pc s g = None)
    /\ wg s = 3 - occurrences IAdd rest - doneBy s GRegistry - doneBy s GMonitor.



(** ** The spec's reading of the service status *)

(** The three equivalences of the spec between the overall status and the
    numbers N (registry size) and K (live entries). *)
Definition statusAgrees (reg : list ActiveMQ) (result : gmap string value) : Prop :=
  (overallStatus result = Some StatusUnavailable <-> liveCount reg = 0)
  /\ (overallStatus result = Some StatusPartiallyAvailable
      <-> 0 < liveCount reg < registrySize reg)
  /\ (overallStatus result = Some StatusOK <-> liveCount reg = registrySize reg).

(** "A mapping from each broker host identifier to its boolean liveness":
    the host of every registry entry is mapped to whether that entry's
    handle is present. *)
Definition mapsEachHostToItsLiveness (reg : list ActiveMQ)
    (result : gmap string value) : Prop :=
  forall c, c ∈ reg -> result !! Host (Config c) = Some (VBool (isLive c)).

Definition hosts (reg : list ActiveMQ) : list string :=
  map (fun c => Host (Config c)) reg.

(** ** Concrete inputs *)

Definition broker (h : string) (c : option nat) : ActiveMQ :=
  {| Config := {| Host := h; Settings := [] |}; Conn := c;
     conn_AppServer := "http://app"; conn_ApiKey := "k" |}.

(** The scenario of the spec: three brokers, handles present for two. *)
Definition threeBrokers : list ActiveMQ :=
  [broker "hostA" (Some 1%nat); broker "hostB" (Some 2%nat); broker "hostC" None].

(** The same host registered twice, as an additive reload leaves it: the
    first connection is up, the second is not. *)
Definition repeatedHost : list ActiveMQ :=
  [broker "hostA" (Some 1%nat); broker "hostA" None].

(** A broker whose host identifier is the string used as the status key. *)
Definition statusKeyHost : list ActiveMQ :=
  [broker "OverallStatus" (Some 1%nat)].

(** ** Statement helpers *)

(** A state that differs from [st] in the registry and the trace only. *)
Definition withRegistry (st : State) (reg : list ActiveMQ) (t : list Event) : State :=
  {| ActiveMQs := reg; nodecomponent := nodecomponent st;
     monitorPort := monitorPort st; monitorServer := monitorServer st;
     dbconn := dbconn st; trace := t |}.

(** The connection object one iteration of the construction loop leaves in
    the registry for the broker settings [cfg]. *)
Definition registeredConnection (ext : External) (gconfig : GlobalConfig)
    (activemqconfigs : ActiveMQconfigs)
    (DB : option sqlDB) (DocDB : option DocDB) (IACMessageBusClient : option Client)
    (cfg : ActiveMQconfig) : ActiveMQ :=
  let c := NewActiveMQConnectionExternal ext cfg DocDB DB IACMessageBusClient in
  Subscribes ext
    {| Config := Config c; Conn := Conn c;
       conn_AppServer := ConverttoString ext (AppServer gconfig !! "url");
       conn_ApiKey := ApiKey activemqconfigs |}.

(** The event the same iteration adds to the trace. *)
Definition subscribeEvent (ext : External)
    (DB : option sqlDB) (DocDB : option DocDB) (IACMessageBusClient : option Client)
    (cfg : ActiveMQconfig) : Event :=
  CallSubscribes
    (Host (Config (NewActiveMQConnectionExternal ext cfg DocDB DB IACMessageBusClient))).

(** The events the decoding step of [initializeActiveMQConnection] logs. *)
Definition unmarshalLog (err : option error) : list Event :=
  match err with
  | Some e => [Log LDebug 212 ("failed to unmarshal the configuration file: " +:+ e)]
  | None => []
  end.

(** ** A concrete environment *)

(** JSON text written with single quotes for readability. *)
Fixpoint fromSingleQuotes (s : string) : string :=
  match s with
  | EmptyString => EmptyString
  | String c rest =>
      String (if Ascii.eqb c (Ascii.ascii_of_nat 39) then Ascii.ascii_of_nat 34 else c)
             (fromSingleQuotes rest)
  end.

(** A well-formed broker-configuration file declaring two brokers. *)
Definition twoBrokersFile : string :=
  fromSingleQuotes "{'ApiKey': 'k', 'ActiveMQs': [{'Host': 'hostA'}, {'Host': 'hostB'}]}".

(** A file in which the host of the second broker is a number where the
    struct field is a string: [json.Unmarshal] reports the type mismatch,
    leaves that field empty and still decodes the rest of the list. *)
Definition mistypedHostFile : string :=
  fromSingleQuotes "{'ApiKey': 'k', 'ActiveMQs': [{'Host': 'hostA'}, {'Host': 7}]}".

Definition brokerSettings (h : string) : ActiveMQconfig :=
  {| Host := h; Settings := [] |}.

(** An environment in which reading the broker-configuration file gives
    [file], every broker accepts the connection and every outbound call
    succeeds. *)
Definition world (file : string + error) : External :=
  {| ReadFile := fun path =>
       if String.eqb path "activemqconfig.json" then file
       else inr ("open " +:+ path +:+ ": no such file or directory");
     Unmarshal := fun data =>
       if String.eqb data twoBrokersFile then
         ({| ApiKey := "k";
             configs_ActiveMQs := [brokerSettings "hostA"; brokerSettings "hostB"] |},
          None)
       else if String.eqb data mistypedHostFile then
         ({| ApiKey := "k";
             configs_ActiveMQs := [brokerSettings "hostA"; brokerSettings ""] |},
          Some ("json: cannot unmarshal number into Go struct field "
                +:+ "ActiveMQconfig.ActiveMQs.Host of type string"))
       else
         ({| ApiKey := ""; configs_ActiveMQs := [] |},
          Some "unexpected end of JSON input");
     NewActiveMQConnectionExternal := fun cfg _ _ _ =>
       {| Config := cfg; Conn := Some 1%nat; conn_AppServer := ""; conn_ApiKey := "" |};
     Subscribes := fun c => c;
     ConverttoString := fun v =>
       match v with Some (VString s) => s | _ => "" end;
     CallWebService := fun _ _ => None;
     CheckNodeHealth := fun _ _ _ => ∅;
     ConnectDB := fun _ => (Some 7%nat, None);
     int_unrepresentable := fun _ => - 2 ^ 63;
     occupiedPorts := ∅ |}.

Definition sampleConfig : GlobalConfig :=
  {| AppServer := {[ "url" := VString "http://app"; "apikey" := VString "secret" ]};
     DatabaseConfig := {[ "type" := VString "mysql";
                          "connection" := VString "user:pw@tcp(db)/iac";
                          "maxidleconns" := VString "many";
                          "maxopenconns" := VFloat64 (S754_finite false 15 1) ]};
     DocumentConfig := ∅ |}.

(** The process state once [main] has initialised its resources, all three
    present, and before any goroutine has run. *)
Definition startState : State :=
  {| ActiveMQs := [];
     nodecomponent := {| nc_DB := Some 7%nat;
                         nc_DocDB := Some {| MongoDBClient := 8%nat |};
                         nc_IACMessageBusClient := Some 9%nat |};
     monitorPort := 0;
     monitorServer := None;
     dbconn := {| DatabaseType := ""; DatabaseConnection := "";
                  MaxIdleConns := 0; MaxOpenConns := 0; dbconn_DB := None |};
     trace := [] |}.

Definition request (method : string) (authorization : option string) : Request :=
  {| Method := method;
     Header := match authorization with
               | Some a => {[ "Authorization" := [a] ]}
               | None => ∅
               end |}.

(** ** Shutdown *)





(** ** Start-up of the resources (main.go 40-90, 184-191, 344-380) *)

(** [*config.GlobalConfig] as [config.LoadGlobalConfig] returns it.
    [GlobalConfig] holds the contents of its maps; a map field can also be the
    nil map, which main.go tests for [DocumentConfig] and [LogConfig]. *)
Record LoadedConfig : Type := {
  loaded : GlobalConfig;
  DocumentConfig_nil : bool;   (* gconfig.DocumentConfig == nil *)
  LogConfig_nil : bool         (* gconfig.LogConfig == nil *)
}.

(** The collaborators of the start-up phase. *)
Record StartupExternal : Type := {
  (* config.LoadGlobalConfig() *)
  LoadGlobalConfig : LoadedConfig + error;
  (* documents.ConnectDB(type, connection, database): the value of
     documents.DocDBCon afterwards *)
  documents_ConnectDB : string -> string -> string -> option DocDB;
  (* iacmb.Connect(gconfig.SingalRConfig) *)
  iacmb_Connect : option Client * option error
}.

(** [initializeloger] (main.go 184-191): the error it returns; [logger.Init]
    touches no variable of main.go. *)
Definition initializeloger (gconfig : LoadedConfig) : option error :=
  if LogConfig_nil gconfig then Some "log configuration is missing"
  else None.

(** An assignment to the three entries of [nodecomponent] (lines 82-84). *)
Definition set_nodecomponent (nc : Components) : M unit := fun st =>
  (Ret tt,
   {| ActiveMQs := ActiveMQs st; nodecomponent := nc;
      monitorPort := monitorPort st; monitorServer := monitorServer st;
      dbconn := dbconn st; trace := trace st |}).

Section StartupPhase.
Context (ext : External) (sx : StartupExternal).

(** [initializedDocuments] (main.go 344-380).  The error built by
    [fmt.Errorf] at line 352 is discarded: nothing is logged there. *)
Definition initializedDocuments (gconfig : LoadedConfig) : M (option DocDB) :=
  if DocumentConfig_nil gconfig then mret None
  else
    let documentsConfig := DocumentConfig (loaded gconfig) in
    DatabaseType ← assertString (documentsConfig !! "type");
    DatabaseConnection ← assertString (documentsConfig !! "connection");
    DatabaseName ← assertString (documentsConfig !! "database");
    if String.eqb DatabaseType "" then
      ilog_Error 365 "initialize Documents error: DatabaseType is missing";;
      mret None
    else if String.eqb DatabaseConnection "" then
      ilog_Error 369 "initialize Documents error: DatabaseConnection is missing";;
      mret None
    else if String.eqb DatabaseName "" then
      ilog_Error 373 "initialize Documents error: DatabaseName is missing";;
      mret None
    else
      mret (documents_ConnectDB sx DatabaseType DatabaseConnection DatabaseName).

(** Lines 46-84 of [main]: load the configuration, set up the three
    resources, and publish their handles in [nodecomponent].  [log.Fatalf]
    writes its message and ends the process with code 1.  The configuration
    that was loaded is returned for the rest of [main]. *)
Definition mainResources : M LoadedConfig :=
  match LoadGlobalConfig sx with
  | inr err =>
      emit (Log LError 56 ("Failed to load global configuration: " +:+ err));;
      os_Exit 1
  | inl gconfig =>
      let _ := initializeloger gconfig in
      DB ← initializeDatabase ext (loaded gconfig);
      when (bool_decide (DB = None)) (ilog_Error 67 "Database connection error");;
      docDB ← initializedDocuments gconfig;
      when (bool_decide (docDB = None)) (ilog_Error 72 "MongoDB connection error!");;
      let '(IACMessageBusClient, err) := iacmb_Connect sx in
      logIfError 77 "Failed to connect to IAC Message Bus: " err;;
      set_nodecomponent {| nc_DB := DB; nc_DocDB := docDB;
                           nc_IACMessageBusClient := IACMessageBusClient |};;
      mret gconfig
  end.

(** The first heartbeat tick as [main] starts it (lines 107-113): with the
    handles [main] obtained, which are the ones in [nodecomponent]. *)
Definition firstHeartBeat (gconfig : LoadedConfig) : M unit :=
  st ← get;
  let nc := nodecomponent st in
  HeartBeat ext (loaded gconfig) (nc_DB nc) (nc_DocDB nc) (nc_IACMessageBusClient nc).
End StartupPhase.

(** ** More concrete inputs *)

(** The process state when [main] begins: nothing registered, no handles. *)
Definition emptyState : State :=
  {| ActiveMQs := [];
     nodecomponent := {| nc_DB := None; nc_DocDB := None;
                         nc_IACMessageBusClient := None |};
     monitorPort := 0;
     monitorServer := None;
     dbconn := {| DatabaseType := ""; DatabaseConnection := "";
                  MaxIdleConns := 0; MaxOpenConns := 0; dbconn_DB := None |};
     trace := [] |}.

(** A configuration with a complete document-store section. *)
Definition fullConfig : GlobalConfig :=
  {| AppServer := AppServer sampleConfig;
     DatabaseConfig := DatabaseConfig sampleConfig;
     DocumentConfig := {[ "type" := VString "mongodb";
                          "connection" := VString "mongodb://localhost:27017";
                          "database" := VString "IAC_CFG" ]} |}.

(** A configuration without database type and without API key. *)
Definition bareConfig : GlobalConfig :=
  {| AppServer := {[ "url" := VString "http://app" ]};
     DatabaseConfig := {[ "connection" := VString "user:pw@tcp(db)/iac" ]};
     DocumentConfig := ∅ |}.

Definition startup (cfg : LoadedConfig + error) (bus : option Client * option error)
  : StartupExternal :=
  {| LoadGlobalConfig := cfg;
     documents_ConnectDB := fun _ _ _ => Some {| MongoDBClient := 8%nat |};
     iacmb_Connect := bus |}.

(** An environment in which every port of the monitor range is taken. *)
Definition crowdedWorld : External :=
  {| ReadFile := ReadFile (world (inr "open activemqconfig.json: no such file or directory"));
     Unmarshal := Unmarshal (world (inl twoBrokersFile));
     NewActiveMQConnectionExternal :=
       NewActiveMQConnectionExternal (world (inl twoBrokersFile));
     Subscribes := fun c => c;
     ConverttoString := ConverttoString (world (inl twoBrokersFile));
     CallWebService := fun _ _ => Some "connection refused";
     CheckNodeHealth := fun _ _ _ => ∅;
     ConnectDB := fun _ => (None, Some "dial tcp: connection refused");
     int_unrepresentable := fun _ => - 2 ^ 63;
     occupiedPorts := list_to_set (map (fun n => 8800 + Z.of_nat n) (seq 0 101)) |}.

(** A start-up in which nothing works: no database type, a nil
    document-store section, and a message bus that refuses the connection. *)
Definition degradedConfig : LoadedConfig :=
  {| loaded := bareConfig; DocumentConfig_nil := true; LogConfig_nil := true |}.

Definition degradedStartup : StartupExternal :=
  startup (inl degradedConfig) (None, Some "connection refused").

(** ** What an operation does to the registry *)

(** [m] only ever appends to the registry. *)
Definition registryGrows {A : Type} (m : M A) : Prop :=
  forall st, ActiveMQs st `prefix_of` ActiveMQs (m st).2.

(** [m] leaves the registry as it is. *)
Definition registryKept {A : Type} (m : M A) : Prop :=
  forall st, ActiveMQs (m st).2 = ActiveMQs st.

(** [m] changes nothing but the trace. *)
Definition onlyTraces {A : Type} (m : M A) : Prop :=
  forall st, exists new, (m st).2 = withRegistry st (ActiveMQs st) (trace st ++ new).

(** [n] runs of the registry operation, one after the other. *)
Definition reloads (ext : External) (gconfig : GlobalConfig)
    (DB : option sqlDB) (DocDB : option DocDB) (bus : option Client)
    (n : nat) (st : State) : State :=
  Nat.iter n (fun s => (initializeActiveMQConnection ext gconfig DB DocDB bus s).2) st.

(** The scheduler state a schedule leads to (the initial one if the
    schedule asks a goroutine for a step it cannot take). *)
Definition afterSchedule (schedule : list Goroutine) : Sched :=
  default initialSched (run schedule initialSched).

(** [main] runs as far as it can, the registry and monitor goroutines run
    to their end, and the heartbeat goroutine goes twice round its loop. *)
Definition everythingStarted : list Goroutine :=
  replicate 13 GMain ++ [GRegistry; GRegistry; GMonitor; GMonitor]
  ++ replicate 4 GHeartbeat.

(** [m] never ends the process. *)
Definition neverExits {A : Type} (m : M A) : Prop :=
  forall st code, (m st).1 <> Exit code.

(** * Properties *)

(** ** The status aggregation *)

Section ServiceStatus.
Implicit Types (reg : list ActiveMQ) (a : StatusAcc) (h : string).

Lemma liveCount_cons c reg :
  liveCount (c :: reg) = (if isLive c then 1 else 0) + liveCount reg.
Proof.
  unfold liveCount. rewrite filter_cons.
  destruct (isLive c); case_decide; try congruence; simpl; lia.
Qed.

Lemma liveCount_bounds reg : 0 <= liveCount reg <= registrySize reg.
Proof.
  unfold registrySize.
  induction reg as [|c reg IH]; [unfold liveCount; simpl; lia|].
  rewrite liveCount_cons. simpl length. destruct (isLive c); lia.
Qed.

Lemma body_counts a c :
  OKCount (CheckServiceStatus_body a c) = OKCount a + (if isLive c then 1 else 0)
  /\ UnavailableCount (CheckServiceStatus_body a c)
     = UnavailableCount a + (if isLive c then 0 else 1).
Proof.
  unfold CheckServiceStatus_body, isLive.
  destruct (Conn c); simpl; lia.
Qed.

Lemma body_result a c h :
  acc_result (CheckServiceStatus_body a c) !! h
  = if decide (Host (Config c) = h) then Some (VBool (isLive c))
    else acc_result a !! h.
Proof.
  unfold CheckServiceStatus_body, isLive.
  destruct (Conn c); simpl; rewrite lookup_insert; reflexivity.
Qed.

(** The loop invariant, for any starting accumulator. *)
Lemma loop_from a reg :
  let a' := foldl CheckServiceStatus_body a reg in
  OKCount a' = OKCount a + liveCount reg
  /\ UnavailableCount a' = UnavailableCount a + (registrySize reg - liveCount reg)
  /\ forall h, acc_result a' !! h
               = match lastLiveness h reg with
                 | Some b => Some (VBool b)
                 | None => acc_result a !! h
                 end.
Proof.
  revert a. induction reg as [|c reg IH]; intros a.
  - unfold liveCount, registrySize; simpl. repeat split; intros; lia || reflexivity.
  - cbn [foldl lastLiveness].
    destruct (IH (CheckServiceStatus_body a c)) as (Hok & Hun & Hres).
    destruct (body_counts a c) as [Hc1 Hc2].
    assert (Hn : registrySize (c :: reg) = 1 + registrySize reg)
      by (unfold registrySize; simpl length; lia).
    rewrite liveCount_cons, Hn.
    repeat split.
    + rewrite Hok, Hc1. lia.
    + rewrite Hun, Hc2. destruct (isLive c); lia.
    + intros h. rewrite Hres, body_result.
      destruct (lastLiveness h reg); [reflexivity|].
      case_decide; reflexivity.
Qed.

Lemma loop_counts reg :
  OKCount (CheckServiceStatus_loop reg) = liveCount reg
  /\ UnavailableCount (CheckServiceStatus_loop reg)
     = registrySize reg - liveCount reg.
Proof.
  destruct (loop_from {| acc_result := ∅; OKCount := 0; UnavailableCount := 0 |} reg)
    as (H1 & H2 & _).
  unfold CheckServiceStatus_loop. simpl in *. lia.
Qed.

Lemma loop_result reg h :
  acc_result (CheckServiceStatus_loop reg) !! h = VBool <$> lastLiveness h reg.
Proof.
  destruct (loop_from {| acc_result := ∅; OKCount := 0; UnavailableCount := 0 |} reg)
    as (_ & _ & H).
  unfold CheckServiceStatus_loop. rewrite H. simpl.
  destruct (lastLiveness h reg); [reflexivity | apply lookup_empty].
Qed.

Lemma overallStatus_CheckServiceStatus reg :
  overallStatus (CheckServiceStatus reg).1
  = Some (OverAllStatus (liveCount reg) (registrySize reg - liveCount reg)).
Proof.
  unfold overallStatus, CheckServiceStatus. simpl.
  rewrite lookup_insert_eq.
  destruct (loop_counts reg) as [-> ->]. reflexivity.
Qed.

Lemma OverAllStatus_cases (k n : Z) :
  0 <= k <= n -> 0 < n ->
  (OverAllStatus k (n - k) = StatusUnavailable <-> k = 0)
  /\ (OverAllStatus k (n - k) = StatusPartiallyAvailable <-> 0 < k < n)
  /\ (OverAllStatus k (n - k) = StatusOK <-> k = n).
Proof.
  intros Hk Hn. unfold OverAllStatus.
  destruct (Z.eqb_spec k 0); simpl.
  - repeat split; intros; try discriminate; lia.
  - destruct (Z.ltb_spec 0 (n - k)); destruct (Z.ltb_spec 0 k); simpl;
      repeat split; intros; try discriminate; lia.
Qed.
End ServiceStatus.

Section HostMapping.
Implicit Types (reg : list ActiveMQ) (h : string).

Lemma lastLiveness_None h reg : h ∉ hosts reg -> lastLiveness h reg = None.
Proof.
  induction reg as [|c reg IH]; [reflexivity|].
  cbn [hosts map lastLiveness]. intros Hnot.
  apply not_elem_of_cons in Hnot as [Hne Hrest].
  rewrite (IH Hrest). case_decide; congruence.
Qed.

Lemma lastLiveness_NoDup reg c :
  NoDup (hosts reg) -> c ∈ reg ->
  lastLiveness (Host (Config c)) reg = Some (isLive c).
Proof.
  induction reg as [|c0 reg IH]; intros Hnd Hin.
  - inversion Hin.
  - cbn [hosts map] in Hnd. apply NoDup_cons in Hnd as [Hfresh Hnd].
    cbn [lastLiveness].
    apply elem_of_cons in Hin as [-> | Hin].
    + rewrite (lastLiveness_None _ _ Hfresh). case_decide; congruence.
    + rewrite (IH Hnd Hin). reflexivity.
Qed.

Lemma CheckServiceStatus_statusAgrees reg :
  0 < registrySize reg -> statusAgrees reg (CheckServiceStatus reg).1.
Proof.
  intros Hn. unfold statusAgrees.
  rewrite overallStatus_CheckServiceStatus.
  destruct (OverAllStatus_cases (liveCount reg) (registrySize reg)
              (liveCount_bounds reg) Hn) as (H1 & H2 & H3).
  split; [|split]; (split; intros Hs; [injection Hs as Hs | f_equal]; tauto).
Qed.

Lemma CheckServiceStatus_lookup reg h :
  h <> "OverallStatus" ->
  (CheckServiceStatus reg).1 !! h = VBool <$> lastLiveness h reg.
Proof.
  intros Hne. unfold CheckServiceStatus. simpl.
  rewrite lookup_insert_ne by congruence. apply loop_result.
Qed.
End HostMapping.

(** ** The monad *)

Section Monad.
Context {A B : Type}.
Implicit Types (m : M A) (f : A -> M B) (st : State).

Lemma bind_Ret m f st st' (a : A) :
  m st = (Ret a, st') -> (m ≫= f) st = f a st'.
Proof. intros H. unfold mbind, M_bind. rewrite H. reflexivity. Qed.

(** A panic and [os.Exit] skip the rest of the function. *)
Lemma bind_Panic m f st st' (msg : string) :
  m st = (Panic msg, st') -> (m ≫= f) st = (Panic msg, st').
Proof. intros H. unfold mbind, M_bind. rewrite H. reflexivity. Qed.

Lemma bind_Exit m f st st' (code : Z) :
  m st = (Exit code, st') -> (m ≫= f) st = (Exit code, st').
Proof. intros H. unfold mbind, M_bind. rewrite H. reflexivity. Qed.

Lemma ret_bind (a : A) f st : (mret a ≫= f) st = f a st.
Proof. reflexivity. Qed.
End Monad.

Lemma withRegistry_id (st : State) : withRegistry st (ActiveMQs st) (trace st) = st.
Proof. destruct st; reflexivity. Qed.

(** ** The connection registry *)

Section Registry.
Context (ext : External) (gconfig : GlobalConfig).
Context (DB : option sqlDB) (DocDB : option DocDB) (bus : option Client).

Lemma insert_last (l : list ActiveMQ) (x y : ActiveMQ) :
  <[Nat.pred (length (l ++ [x])) := y]> (l ++ [x]) = l ++ [y].
Proof.
  rewrite length_app. simpl length.
  replace (Nat.pred (length l + 1)) with (length l + 0)%nat by lia.
  rewrite insert_app_r. reflexivity.
Qed.

(** One iteration of the loop at lines 217-225. *)
Lemma loop_body_appends (cfgs : ActiveMQconfigs) (cfg : ActiveMQconfig) (st : State) :
  (let activemqconn := NewActiveMQConnectionExternal ext cfg DocDB DB bus in
   let activemqconn :=
     {| Config := Config activemqconn; Conn := Conn activemqconn;
        conn_AppServer := ConverttoString ext (AppServer gconfig !! "url");
        conn_ApiKey := ApiKey cfgs |} in
   st0 ← get;
   set_ActiveMQs (ActiveMQs st0 ++ [activemqconn]);;
   callSubscribes ext activemqconn) st
  = (Ret tt,
     withRegistry st
       (ActiveMQs st ++ [registeredConnection ext gconfig cfgs DB DocDB bus cfg])
       (trace st ++ [subscribeEvent ext DB DocDB bus cfg])).
Proof.
  unfold callSubscribes, mbind, M_bind, get, set_ActiveMQs, emit, withRegistry.
  cbn [ActiveMQs nodecomponent monitorPort monitorServer dbconn trace].
  rewrite insert_last. reflexivity.
Qed.

Lemma forRange_appends (cfgs : ActiveMQconfigs) (l : list ActiveMQconfig) (st : State) :
  forRange l (fun activemqcfg =>
    let activemqconn := NewActiveMQConnectionExternal ext activemqcfg DocDB DB bus in
    let activemqconn :=
      {| Config := Config activemqconn; Conn := Conn activemqconn;
         conn_AppServer := ConverttoString ext (AppServer gconfig !! "url");
         conn_ApiKey := ApiKey cfgs |} in
    st0 ← get;
    set_ActiveMQs (ActiveMQs st0 ++ [activemqconn]);;
    callSubscribes ext activemqconn) st
  = (Ret tt,
     withRegistry st
       (ActiveMQs st ++ map (registeredConnection ext gconfig cfgs DB DocDB bus) l)
       (trace st ++ map (subscribeEvent ext DB DocDB bus) l)).
Proof.
  revert st. induction l as [|cfg l IH]; intros st.
  - simpl. rewrite !app_nil_r, withRegistry_id. reflexivity.
  - cbn [forRange].
    rewrite (bind_Ret _ _ _ _ _ (loop_body_appends cfgs cfg st)).
    rewrite IH. unfold withRegistry.
    cbn [ActiveMQs nodecomponent monitorPort monitorServer dbconn trace map].
    rewrite <- !app_assoc. reflexivity.
Qed.

(** The file can be read: one connection per decoded broker entry is
    appended, whether or not the decoder reported an error. *)
Lemma initializeActiveMQConnection_read (data : string) (st : State) :
  ReadFile ext "activemqconfig.json" = inl data ->
  initializeActiveMQConnection ext gconfig DB DocDB bus st
  = (Ret tt,
     withRegistry st
       (ActiveMQs st
        ++ map (registeredConnection ext gconfig (Unmarshal ext data).1 DB DocDB bus)
               (configs_ActiveMQs (Unmarshal ext data).1))
       (trace st ++ unmarshalLog (Unmarshal ext data).2
        ++ map (subscribeEvent ext DB DocDB bus)
               (configs_ActiveMQs (Unmarshal ext data).1))).
Proof.
  intros Hread. unfold initializeActiveMQConnection. rewrite Hread.
  destruct (Unmarshal ext data) as [cfgs [e|]]; cbn [fst snd unmarshalLog].
  - erewrite bind_Ret by (unfold ilog_Debug, emit; reflexivity).
    rewrite forRange_appends. unfold withRegistry.
    cbn [ActiveMQs nodecomponent monitorPort monitorServer dbconn trace].
    rewrite <- app_assoc. reflexivity.
  - erewrite bind_Ret by reflexivity.
    rewrite forRange_appends. reflexivity.
Qed.

(** The file cannot be read: the failure is logged and nothing else
    happens. *)
Lemma initializeActiveMQConnection_read_error (err : error) (st : State) :
  ReadFile ext "activemqconfig.json" = inr err ->
  initializeActiveMQConnection ext gconfig DB DocDB bus st
  = (Ret tt,
     withRegistry st (ActiveMQs st)
       (trace st ++ [Log LDebug 204 ("failed to read configuration file: " +:+ err)])).
Proof.
  intros Hread. unfold initializeActiveMQConnection. rewrite Hread.
  reflexivity.
Qed.

(** The registry never shrinks and no entry is replaced. *)
Lemma initializeActiveMQConnection_prefix (st : State) :
  ActiveMQs st `prefix_of`
    ActiveMQs (initializeActiveMQConnection ext gconfig DB DocDB bus st).2.
Proof.
  destruct (ReadFile ext "activemqconfig.json") as [data|err] eqn:Hread.
  - rewrite (initializeActiveMQConnection_read data st Hread). simpl.
    apply prefix_app_r. reflexivity.
  - rewrite (initializeActiveMQConnection_read_error err st Hread). reflexivity.
Qed.

(** A decoding failure leaves the registry alone exactly when nothing was
    decoded into the list of brokers. *)
Lemma initializeActiveMQConnection_parse_error (data : string) (e : error) (st : State) :
  ReadFile ext "activemqconfig.json" = inl data ->
  (Unmarshal ext data).2 = Some e ->
  ActiveMQs (initializeActiveMQConnection ext gconfig DB DocDB bus st).2 = ActiveMQs st
  <-> configs_ActiveMQs (Unmarshal ext data).1 = [].
Proof.
  intros Hread _. rewrite (initializeActiveMQConnection_read data st Hread).
  cbn [snd withRegistry ActiveMQs]. split.
  - intros Heq.
    apply (f_equal length) in Heq. rewrite length_app, length_map in Heq.
    destruct (configs_ActiveMQs (Unmarshal ext data).1); [reflexivity|].
    cbn [length] in Heq. lia.
  - intros ->. cbn [map]. apply app_nil_r.
Qed.
End Registry.

(** ** The HTTP handlers *)

Section Handlers.
Context (ext : External) (gconfig : GlobalConfig).
Implicit Types (r : Request) (st : State) (key : string).

Lemma healthHandler_wrong_method r st :
  Method r <> "GET" ->
  healthHandler ext gconfig r st = (Ret (http_Error "Method not allowed" 405), st).
Proof.
  intros Hm. unfold healthHandler.
  apply String.eqb_neq in Hm. rewrite Hm. reflexivity.
Qed.

Lemma healthHandler_unauthorized r st key :
  AppServer gconfig !! "apikey" = Some (VString key) ->
  Method r = "GET" ->
  Header_Get (Header r) "Authorization" <> "apikey " +:+ key ->
  healthHandler ext gconfig r st = (Ret (http_Error "Unauthorized" 401), st).
Proof.
  intros Hkey Hm Hauth. unfold healthHandler.
  apply String.eqb_eq in Hm. rewrite Hm. cbn [negb].
  rewrite Hkey. unfold assertString, mbind, M_bind, mret, M_ret.
  apply String.eqb_neq in Hauth. rewrite Hauth. reflexivity.
Qed.

Lemma healthHandler_authorized r st key :
  AppServer gconfig !! "apikey" = Some (VString key) ->
  Method r = "GET" ->
  Header_Get (Header r) "Authorization" = "apikey " +:+ key ->
  healthHandler ext gconfig r st = healthBody ext st.
Proof.
  intros Hkey Hm Hauth. unfold healthHandler.
  apply String.eqb_eq in Hm. rewrite Hm. cbn [negb].
  rewrite Hkey. unfold assertString, mbind, M_bind, mret, M_ret.
  apply String.eqb_eq in Hauth. rewrite Hauth. reflexivity.
Qed.

Lemma reloadconfigHandler_wrong_method r st :
  Method r <> "POST" ->
  reloadconfigHandler ext gconfig r st
  = (Ret (http_Error "Method not allowed" 405), st).
Proof.
  intros Hm. unfold reloadconfigHandler.
  apply String.eqb_neq in Hm. rewrite Hm. reflexivity.
Qed.

Lemma reloadconfigHandler_unauthorized r st key :
  AppServer gconfig !! "apikey" = Some (VString key) ->
  Method r = "POST" ->
  Header_Get (Header r) "Authorization" <> "apikey " +:+ key ->
  reloadconfigHandler ext gconfig r st = (Ret (http_Error "Unauthorized" 401), st).
Proof.
  intros Hkey Hm Hauth. unfold reloadconfigHandler.
  apply String.eqb_eq in Hm. rewrite Hm. cbn [negb].
  rewrite Hkey. unfold assertString, mbind, M_bind, mret, M_ret.
  apply String.eqb_neq in Hauth. rewrite Hauth. reflexivity.
Qed.

Lemma reloadconfigHandler_authorized r st key :
  AppServer gconfig !! "apikey" = Some (VString key) ->
  Method r = "POST" ->
  Header_Get (Header r) "Authorization" = "apikey " +:+ key ->
  reloadconfigHandler ext gconfig r st = reloadconfigBody ext gconfig st.
Proof.
  intros Hkey Hm Hauth. unfold reloadconfigHandler.
  apply String.eqb_eq in Hm. rewrite Hm. cbn [negb].
  rewrite Hkey. unfold assertString, mbind, M_bind, mret, M_ret.
  apply String.eqb_eq in Hauth. rewrite Hauth. reflexivity.
Qed.

(** A header that is absent never passes the check. *)
Lemma missing_header_rejected r key :
  Header r !! "Authorization" = None ->
  Header_Get (Header r) "Authorization" <> "apikey " +:+ key.
Proof.
  intros Hnone. unfold Header_Get. rewrite Hnone. discriminate.
Qed.

End Handlers.

(** ** The callers of CheckServiceStatus *)

Section Callers.
Context (ext : External) (gconfig : GlobalConfig).

Lemma CheckServiceStatus_nil (reg : list ActiveMQ) : (CheckServiceStatus reg).2 = None.
Proof. reflexivity. Qed.

(** A tick with a document store: one POST, and a log entry at line 150
    when the POST fails. *)
Lemma HeartBeat_trace (DB : option sqlDB) (doc : DocDB) (bus : option Client)
    (st : State) :
  let url := ConverttoString ext (AppServer gconfig !! "url")
             +:+ "/IACComponents/heartbeat" in
  HeartBeat ext gconfig DB (Some doc) bus st
  = (Ret tt,
     withRegistry st (ActiveMQs st)
       (trace st ++ WebService url "POST"
          :: match CallWebService ext url "POST" with
             | Some e => [Log LError 150 ("HeartBeat error: " +:+ e)]
             | None => []
             end)).
Proof.
  intros url. unfold HeartBeat. fold url.
  unfold mbind, M_bind, get, logIfError, emit, ilog_Error, emit, withRegistry, mret, M_ret.
  cbn [CheckServiceStatus snd fst].
  cbn [ActiveMQs nodecomponent monitorPort monitorServer dbconn trace].
  destruct (CallWebService ext url "POST");
    cbn [ActiveMQs nodecomponent monitorPort monitorServer dbconn trace];
    rewrite <- ?app_assoc; reflexivity.
Qed.

(** A tick without a document store panics before anything is sent. *)
Lemma HeartBeat_nil_DocDB (DB : option sqlDB) (bus : option Client) (st : State) :
  HeartBeat ext gconfig DB None bus st
  = (Panic "invalid memory address or nil pointer dereference", st).
Proof. reflexivity. Qed.

Lemma healthBody_no_log (st : State) : (healthBody ext st).2 = st.
Proof.
  unfold healthBody, mbind, M_bind, get.
  destruct (nc_DocDB (nodecomponent st)); [|reflexivity].
  destruct (nc_IACMessageBusClient (nodecomponent st)); reflexivity.
Qed.
End Callers.

(** ** Port selection *)

Section PortSelection.
Context (occupied : gset Z).

(** With enough iterations left to reach [maxPort], the scan stops at the
    first free port, and fails only when every port from [port] on is
    occupied. *)
Lemma getAvailablePort_loop_spec (n : nat) (port maxPort : Z) :
  maxPort - port + 1 <= Z.of_nat n ->
  match getAvailablePort_loop occupied n port maxPort with
  | Some p =>
      port <= p <= maxPort /\ (p ∉ occupied)
      /\ forall q, port <= q < p -> q ∈ occupied
  | None => forall q, port <= q <= maxPort -> q ∈ occupied
  end.
Proof.
  revert port. induction n as [|n IH]; intros port Hfuel.
  - simpl. intros q Hq. lia.
  - cbn [getAvailablePort_loop].
    destruct (Z.leb_spec port maxPort) as [Hle|Hgt].
    + case_bool_decide as Hocc.
      * assert (Hfuel' : maxPort - (port + 1) + 1 <= Z.of_nat n) by lia.
        specialize (IH (port + 1) Hfuel').
        destruct (getAvailablePort_loop occupied n (port + 1) maxPort) as [p|].
        -- destruct IH as (Hrange & Hfree & Hbelow).
           split; [lia|]. split; [exact Hfree|].
           intros q Hq. destruct (Z.eq_dec q port) as [->|Hne]; [exact Hocc|].
           apply Hbelow. lia.
        -- intros q Hq. destruct (Z.eq_dec q port) as [->|Hne]; [exact Hocc|].
           apply IH. lia.
      * split; [lia|]. split; [exact Hocc|]. intros q Hq. lia.
    + intros q Hq. lia.
Qed.

Lemma getAvailablePort_spec (minPort maxPort : Z) :
  match getAvailablePort occupied minPort maxPort with
  | (p, None) =>
      minPort <= p <= maxPort /\ (p ∉ occupied)
      /\ forall q, minPort <= q < p -> q ∈ occupied
  | (p, Some err) =>
      p = 0
      /\ err = "no available port found in the range " +:+ Z_to_string minPort
               +:+ "-" +:+ Z_to_string maxPort
      /\ forall q, minPort <= q <= maxPort -> q ∈ occupied
  end.
Proof.
  unfold getAvailablePort.
  assert (Hfuel : maxPort - minPort + 1 <= Z.of_nat (Z.to_nat (maxPort - minPort + 1)))
    by lia.
  pose proof (getAvailablePort_loop_spec _ minPort maxPort Hfuel) as H.
  destruct (getAvailablePort_loop occupied _ minPort maxPort) as [p|].
  - exact H.
  - split; [reflexivity|]. split; [reflexivity | exact H].
Qed.
End PortSelection.



(** ** Shutdown *)

Section Shutdown.
Context (ext : External) (gconfig : GlobalConfig).


(** Without a message-bus client the type assertion of line 241 panics,
    after the database and the document store have been closed. *)
Lemma closeResources_nil_bus (st : State) :
  nc_IACMessageBusClient (nodecomponent st) = None ->
  (closeResources st).1
  = Panic "interface conversion: interface is nil, not signalr.Client".
Proof.
  intros Hbus.
  destruct st as [reg [db doc bus] port srv d t]. cbn in Hbus. subst bus.
  unfold closeResources, mbind, M_bind, get, when, emit.
  destruct db, doc; reflexivity.
Qed.

End Shutdown.

(** ** Database pool settings *)

Section Database.
Context (ext : External).





(** Without a database type nothing is assigned. *)
Lemma initializeDatabase_no_type (gconfig : GlobalConfig) (st : State) :
  isNil (DatabaseConfig gconfig !! "type") = true ->
  (initializeDatabase ext gconfig st).1 = Ret None
  /\ dbconn (initializeDatabase ext gconfig st).2 = dbconn st.
Proof.
  intros Hnil. unfold initializeDatabase. rewrite Hnil. split; reflexivity.
Qed.
End Database.

(** ** Ordering of the start-up steps *)

Section Startup.
Implicit Types (s : Sched) (g : Goroutine) (i : Instr)
  (h : list (Goroutine * Instr)) (a b x : Goroutine * Instr).

(** Case analysis on where [main] is in its code: [H] says that the code
    is [past] followed by something. *)
Ltac split_main_code past H :=
  cbn [code] in H;
  repeat (destruct past as [|? past];
          [ try discriminate H
          | cbn [app] in H; first [discriminate H | injection H as <- H] ]).

Lemma precedes_nil a b : precedes a b [].
Proof. intros h1 h2 H. destruct h1; discriminate. Qed.

Lemma precedes_snoc a b x h :
  (x = b -> a ∈ h) -> precedes a b h -> precedes a b (h ++ [x]).
Proof.
  intros Hx Hpre h1 h2 Heq.
  destruct h2 as [|y h2 _] using rev_ind.
  - apply app_inj_tail in Heq as [-> ->]. apply Hx. reflexivity.
  - rewrite app_comm_cons, app_assoc in Heq.
    apply app_inj_tail in Heq as [-> _].
    apply (Hpre h1 h2). reflexivity.
Qed.

(** Whatever [main] has done before a [go] statement includes the whole
    resource initialisation. *)
Lemma resourceInit_before_go (past rest : list Instr) g a :
  code GMain = past ++ IGo g :: rest ->
  a ∈ resourceInit -> exists i, a = (GMain, i) /\ i ∈ past.
Proof.
  intros Hcode Ha. unfold resourceInit in Ha.
  split_main_code past Hcode;
    repeat (apply elem_of_cons in Ha as [-> | Ha];
            [eexists; split; [reflexivity|]; repeat constructor|]);
    inversion Ha.
Qed.

Lemma Inv_initial : Inv initialSched.
Proof.
  split.
  - exists [], (code GMain). split; [reflexivity|]. split; [reflexivity|].
    intros i Hi. inversion Hi.
  - intros g l i Hg Hpc. destruct g; try discriminate Hpc. congruence.
  - intros g a Hg [l Hpc]. destruct g; try discriminate Hpc. congruence.
  - intros a _. split; apply precedes_nil.
Qed.

Lemma continue_in_code g (rest : list Instr) i :
  (forall j, j ∈ rest -> j ∈ code g) -> i ∈ continue g rest -> i ∈ code g.
Proof.
  intros Hrest Hi. destruct g, rest; cbn [continue] in Hi; auto.
Qed.

Lemma no_go_outside_main g g' : g <> GMain -> IGo g' ∉ code g.
Proof.
  intros Hg Hin. destruct g; [congruence| | |]; cbn [code] in Hin;
    repeat (apply elem_of_cons in Hin as [Hin | Hin]; [discriminate|]);
    inversion Hin.
Qed.

Lemma go_target_not_main (past rest : list Instr) g :
  code GMain = past ++ IGo g :: rest -> g <> GMain.
Proof.
  intros Hcode ->. split_main_code past Hcode.
Qed.

(** What a step changes. *)
Lemma exec_Some s s' g :
  exec s g = Some s' ->
  exists i rest,
    pc s g = Some (i :: rest)
    /\ history s' = history s ++ [(g, i)]
    /\ pc s' = match i with
               | IGo g' => <[g' := Some (code g')]> (<[g := Some (continue g rest)]> (pc s))
               | _ => <[g := Some (continue g rest)]> (pc s)
               end.
Proof.
  unfold exec. intros Hexec.
  destruct (pc s g) as [[|i rest]|]; try discriminate Hexec.
  exists i, rest. split; [reflexivity|].
  destruct i; try (injection Hexec as <-; split; reflexivity).
  destruct (wg s =? 0); [|discriminate Hexec].
  injection Hexec as <-. split; reflexivity.
Qed.

Lemma Inv_exec s s' g : Inv s -> exec s g = Some s' -> Inv s'.
Proof.
  intros [Hmain Hcode Hstarted Horder] Hexec.
  destruct (exec_Some s s' g Hexec) as (i & rest & Hpc & Hhist & Hpc').
  destruct Hmain as (past & rest0 & Hsplit & Hpcmain & Hpast).
  destruct (decide (g = GMain)) as [-> | Hg].
  - (* a step of main *)
    rewrite Hpcmain in Hpc. injection Hpc as ->.
    split.
    + exists (past ++ [i]), rest.
      split; [rewrite <- app_assoc; exact Hsplit|]. split.
      * rewrite Hpc'. destruct i;
          try (rewrite fn_lookup_insert; reflexivity).
        rewrite fn_lookup_insert_ne by (apply (go_target_not_main _ _ _ Hsplit)).
        rewrite fn_lookup_insert. reflexivity.
      * intros j Hj. rewrite Hhist.
        apply elem_of_app in Hj as [Hj | Hj]; apply elem_of_app.
        -- left. apply Hpast, Hj.
        -- right. apply list_elem_of_singleton in Hj as ->. left.
    + intros g0 l j Hg0 Hl Hj. rewrite Hpc' in Hl.
      assert (Hcases : pc s g0 = Some l \/ l = code g0).
      { destruct i;
          try (rewrite fn_lookup_insert_ne in Hl by congruence; left; exact Hl).
        destruct (decide (g = g0)) as [-> | Hne].
        - rewrite fn_lookup_insert in Hl. right. congruence.
        - rewrite !fn_lookup_insert_ne in Hl by congruence. left; exact Hl. }
      destruct Hcases as [Hold | ->]; [exact (Hcode g0 l j Hg0 Hold Hj) | exact Hj].
    + intros g0 a Hg0 Hsome Ha. rewrite Hhist. apply elem_of_app.
      rewrite Hpc' in Hsome.
      assert (Hcases : is_Some (pc s g0) \/ i = IGo g0).
      { destruct i;
          try (rewrite fn_lookup_insert_ne in Hsome by congruence; left; exact Hsome).
        destruct (decide (g = g0)) as [-> | Hne]; [right; reflexivity|].
        rewrite !fn_lookup_insert_ne in Hsome by congruence. left; exact Hsome. }
      destruct Hcases as [Hold | ->].
      * left. exact (Hstarted g0 a Hg0 Hold Ha).
      * destruct (resourceInit_before_go past rest g0 a Hsplit Ha) as (j & -> & Hj).
        left. apply Hpast, Hj.
    + intros a Ha. destruct (Horder a Ha) as [Hreg Hhb]. rewrite Hhist.
      split; (apply precedes_snoc; [discriminate | assumption]).
  - (* a step of another goroutine *)
    assert (Hi : i ∈ code g) by (apply (Hcode g (i :: rest) i Hg Hpc); left).
    assert (Hpc'' : pc s' = <[g := Some (continue g rest)]> (pc s)).
    { rewrite Hpc'. destruct i; try reflexivity.
      exfalso. exact (no_go_outside_main g _ Hg Hi). }
    clear Hpc'.
    split.
    + exists past, rest0. split; [exact Hsplit|]. split.
      * rewrite Hpc'', fn_lookup_insert_ne by exact Hg. exact Hpcmain.
      * intros j Hj. rewrite Hhist. apply elem_of_app. left. apply Hpast, Hj.
    + intros g0 l j Hg0 Hl Hj. rewrite Hpc'' in Hl.
      destruct (decide (g = g0)) as [<- | Hne].
      * rewrite fn_lookup_insert in Hl. injection Hl as <-.
        apply (continue_in_code g rest j); [|exact Hj].
        intros k Hk. apply (Hcode g (i :: rest) k Hg Hpc). right. exact Hk.
      * rewrite fn_lookup_insert_ne in Hl by exact Hne.
        exact (Hcode g0 l j Hg0 Hl Hj).
    + intros g0 a Hg0 Hsome Ha. rewrite Hhist. apply elem_of_app. left.
      rewrite Hpc'' in Hsome.
      destruct (decide (g = g0)) as [<- | Hne].
      * apply (Hstarted g a Hg); [rewrite Hpc; eexists; reflexivity | exact Ha].
      * rewrite fn_lookup_insert_ne in Hsome by exact Hne.
        exact (Hstarted g0 a Hg0 Hsome Ha).
    + intros a Ha. destruct (Horder a Ha) as [Hreg Hhb]. rewrite Hhist.
      assert (Hin : a ∈ history s)
        by (apply (Hstarted g a Hg); [rewrite Hpc; eexists; reflexivity | exact Ha]).
      split; (apply precedes_snoc; [intros _; exact Hin | assumption]).
Qed.

Lemma Inv_reachable s : reachable s -> Inv s.
Proof.
  unfold reachable. revert s.
  apply (rtc_ind_r (fun s => Inv s) initialSched).
  - apply Inv_initial.
  - intros s1 s2 _ [g Hexec] IH. exact (Inv_exec s1 s2 g IH Hexec).
Qed.

Lemma run_rtc (schedule : list Goroutine) s s' :
  run schedule s = Some s' -> rtc step s s'.
Proof.
  revert s. induction schedule as [|g schedule IH]; intros s Hrun; cbn [run] in Hrun.
  - injection Hrun as <-. apply rtc_refl.
  - destruct (exec s g) as [s1|] eqn:Hexec; [|discriminate Hrun].
    apply (rtc_l _ _ s1); [exists g; exact Hexec | apply IH, Hrun].
Qed.

Lemma run_reachable (schedule : list Goroutine) s :
  run schedule initialSched = Some s -> reachable s.
Proof. apply run_rtc. Qed.

(** *** [main] never gets past [wg.Wait()] *)

Lemma occurrences_cons i (j : Instr) (l : list Instr) :
  occurrences i (j :: l) = (if decide (i = j) then 1 else 0) + occurrences i l.
Proof.
  unfold occurrences. rewrite filter_cons.
  case_decide; cbn [length]; lia.
Qed.

Lemma occurrences_nonneg i (l : list Instr) : 0 <= occurrences i l.
Proof. unfold occurrences. lia. Qed.

Lemma doneBy_le_1 s g : doneBy s g <= 1.
Proof.
  unfold doneBy. destruct (pc s g) as [l|]; [|lia].
  pose proof (occurrences_nonneg IDone l). lia.
Qed.

Lemma no_Add_after_Wait (past rest : list Instr) :
  code GMain = past ++ IWait :: rest -> occurrences IAdd (IWait :: rest) = 0.
Proof.
  intros Hcode. split_main_code past Hcode.
  injection Hcode as <-. reflexivity.
Qed.

Lemma go_once (past rest : list Instr) g :
  code GMain = past ++ IGo g :: rest -> IGo g ∉ rest.
Proof.
  intros Hcode. split_main_code past Hcode;
    injection Hcode as <- <-; apply (bool_decide_unpack _); vm_compute; exact I.
Qed.

Lemma main_never_Done (past rest : list Instr) :
  code GMain <> past ++ IDone :: rest.
Proof. intros Hcode. split_main_code past Hcode. Qed.

Lemma Wait_ahead (past rest : list Instr) :
  code GMain = past ++ rest -> IWait ∈ rest ->
  (IWait ∉ past) /\ (IWaitForTerminationSignal ∉ past).
Proof.
  intros Hcode Hwait.
  assert (Hrest : rest = drop (length past) (code GMain))
    by (rewrite Hcode, drop_app_length; reflexivity).
  assert (Hpast : past = take (length past) (code GMain))
    by (rewrite Hcode, take_app_length; reflexivity).
  assert (Hlen : (length past <= length (code GMain))%nat)
    by (rewrite Hcode, length_app; lia).
  cbn [code length] in Hlen.
  rewrite Hrest in Hwait. rewrite Hpast.
  clear Hcode Hrest Hpast. revert Hwait.
  generalize (length past) Hlen. clear.
  intros n Hn.
  do 16 (destruct n as [|n];
         [ intros Hwait; split; apply (bool_decide_unpack _); vm_compute; exact I
           || (exfalso; revert Hwait; apply (bool_decide_unpack _); vm_compute; exact I)
         | ]).
  lia.
Qed.

(** What a step does to the counter. *)
Lemma exec_wg s s' g i (rest : list Instr) :
  exec s g = Some s' -> pc s g = Some (i :: rest) ->
  wg s' = match i with
          | IAdd => wg s + 1
          | IDone => wg s - 1
          | _ => wg s
          end
  /\ (i = IWait -> wg s = 0).
Proof.
  unfold exec. intros Hexec Hpc. rewrite Hpc in Hexec.
  destruct i; try (injection Hexec as <-; split; [reflexivity | discriminate]).
  destruct (Z.eqb_spec (wg s) 0) as [Hz|]; [|discriminate Hexec].
  injection Hexec as <-. split; [reflexivity | intros _; exact Hz].
Qed.

Lemma WaitInv_initial : WaitInv initialSched.
Proof.
  exists [], (code GMain).
  split; [reflexivity|]. split; [reflexivity|].
  split; [apply (bool_decide_unpack _); vm_compute; exact I|].
  split; [intros i Hi; inversion Hi|].
  split; [|reflexivity].
  intros g Hg. destruct g; [|reflexivity..].
  exfalso. revert Hg. apply (bool_decide_unpack _). vm_compute. exact I.
Qed.

Lemma WaitInv_exec s s' g : Inv s -> WaitInv s -> exec s g = Some s' -> WaitInv s'.
Proof.
  intros HInv (past & rest0 & Hsplit & Hpcmain & Hwait & Hpast & Hnot & Hwg) Hexec.
  destruct (exec_Some s s' g Hexec) as (i & rest & Hpc & Hhist & Hpc').
  destruct (exec_wg s s' g i rest Hexec Hpc) as [Hwg' Hblocked].
  destruct (decide (g = GMain)) as [-> | Hg].
  - (* a step of main *)
    rewrite Hpcmain in Hpc. injection Hpc as ->.
    destruct (decide (i = IWait)) as [-> | Hiw].
    { exfalso. specialize (Hblocked eq_refl).
      rewrite (no_Add_after_Wait past rest Hsplit) in Hwg.
      pose proof (doneBy_le_1 s GRegistry). pose proof (doneBy_le_1 s GMonitor). lia. }
    assert (Hother : forall g0, g0 <> GMain -> i <> IGo g0 -> pc s' g0 = pc s g0).
    { intros g0 Hg0 Hi. rewrite Hpc'.
      destruct i; try (apply fn_lookup_insert_ne; congruence).
      rewrite !fn_lookup_insert_ne by congruence. reflexivity. }
    assert (Hdone : forall g0, g0 <> GMain -> g0 <> GHeartbeat ->
                               doneBy s' g0 = doneBy s g0).
    { intros g0 Hg0 Hhb. unfold doneBy.
      destruct (decide (i = IGo g0)) as [-> | Hi].
      - rewrite (Hnot g0) by left.
        rewrite Hpc', fn_lookup_insert. destruct g0; congruence || reflexivity.
      - rewrite (Hother g0 Hg0 Hi). reflexivity. }
    exists (past ++ [i]), rest.
    split; [rewrite <- app_assoc; exact Hsplit|]. split; [|split; [|split; [|split]]].
    + rewrite Hpc'. destruct i; try (rewrite fn_lookup_insert; reflexivity).
      rewrite fn_lookup_insert_ne by (apply (go_target_not_main _ _ _ Hsplit)).
      rewrite fn_lookup_insert. reflexivity.
    + apply elem_of_cons in Hwait as [Heq | Hin]; [congruence | exact Hin].
    + intros j Hj. rewrite Hhist in Hj.
      apply elem_of_app in Hj as [Hj | Hj]; apply elem_of_app.
      * left. apply Hpast, Hj.
      * right. apply list_elem_of_singleton in Hj. injection Hj as ->. left.
    + intros g0 Hg0.
      assert (Hnone : pc s g0 = None) by (apply Hnot; right; exact Hg0).
      rewrite Hother; [exact Hnone | congruence |].
      intros ->. exact (go_once _ _ _ Hsplit Hg0).
    + rewrite (Hdone GRegistry), (Hdone GMonitor) by discriminate.
      rewrite occurrences_cons in Hwg.
      destruct i; try (case_decide; [discriminate|]; lia).
      * case_decide; [|congruence]. lia.
      * exfalso. exact (main_never_Done _ _ Hsplit).
  - (* a step of another goroutine *)
    assert (Hi : i ∈ code g)
      by (apply (inv_code s HInv g (i :: rest) i Hg Hpc); left).
    assert (Hpc'' : pc s' = <[g := Some (continue g rest)]> (pc s)).
    { rewrite Hpc'. destruct i; try reflexivity.
      exfalso. exact (no_go_outside_main g _ Hg Hi). }
    clear Hpc'.
    exists past, rest0.
    split; [exact Hsplit|]. split; [|split; [|split; [|split]]].
    + rewrite Hpc'', fn_lookup_insert_ne by exact Hg. exact Hpcmain.
    + exact Hwait.
    + intros j Hj. rewrite Hhist in Hj.
      apply elem_of_app in Hj as [Hj | Hj]; [apply Hpast, Hj|].
      apply list_elem_of_singleton in Hj. congruence.
    + intros g0 Hg0. rewrite Hpc'', fn_lookup_insert_ne; [apply Hnot, Hg0|].
      intros <-. rewrite (Hnot g Hg0) in Hpc. discriminate Hpc.
    + unfold doneBy in *. rewrite Hpc''.
      destruct g; [congruence | | |]; cbn [code] in Hi;
        repeat (apply elem_of_cons in Hi as [-> | Hi]); try (inversion Hi; fail);
        rewrite ?fn_lookup_insert, ?fn_lookup_insert_ne by discriminate;
        rewrite ?Hpc in Hwg; cbn [continue];
        rewrite ?occurrences_cons in Hwg;
        repeat case_decide; try congruence; lia.
Qed.

(** Every reachable state satisfies both invariants. *)
Lemma invariants_reachable s : reachable s -> Inv s /\ WaitInv s.
Proof.
  unfold reachable. revert s.
  apply (rtc_ind_r (fun s => Inv s /\ WaitInv s) initialSched).
  - split; [apply Inv_initial | apply WaitInv_initial].
  - intros s1 s2 _ [g Hexec] [HInv HWait]. split.
    + exact (Inv_exec s1 s2 g HInv Hexec).
    + exact (WaitInv_exec s1 s2 g HInv HWait Hexec).
Qed.

(** [main] neither passes [wg.Wait()] nor reaches
    [waitForTerminationSignal]: the heartbeat goroutine never calls
    [wg.Done()], so the counter stays positive. *)
Lemma main_blocks_at_Wait s :
  reachable s ->
  ((GMain, IWait) ∉ history s) /\ ((GMain, IWaitForTerminationSignal) ∉ history s).
Proof.
  intros Hreach.
  destruct (invariants_reachable s Hreach)
    as [_ (past & rest & Hsplit & _ & Hwait & Hpast & _)].
  destruct (Wait_ahead past rest Hsplit Hwait) as [Hw Hs].
  split; intros Hin; [apply Hw | apply Hs]; apply Hpast, Hin.
Qed.
End Startup.

(** * The claims *)

(** ** Status aggregation *)

(** C1, as the code has it: for the empty registry [OKCount] is 0, so the
    first branch of the chain is taken and the overall status is
    Unavailable. *)
Theorem CheckServiceStatus_empty_Unavailable :
  overallStatus (CheckServiceStatus []).1 = Some StatusUnavailable.
Proof. rewrite overallStatus_CheckServiceStatus. reflexivity. Qed.

(** C1 as stated fails: the overall status of the empty registry is not OK. *)
Lemma CheckServiceStatus_empty_not_OK :
  overallStatus (CheckServiceStatus []).1 <> Some StatusOK.
Proof. rewrite overallStatus_CheckServiceStatus. discriminate. Qed.

(** C2, as the code has it: for a non-empty registry the overall status is
    Unavailable iff K = 0, PartiallyAvailable iff 0 < K < N and OK iff
    K = N; every key [h] other than ["OverallStatus"] is mapped to the
    liveness of the last registry entry whose host is [h] (and is absent when
    there is none); and when the hosts are pairwise distinct and none of them
    is ["OverallStatus"], the host of each entry is mapped to that entry's
    liveness. *)
Theorem CheckServiceStatus_status_and_mapping (reg : list ActiveMQ) :
  0 < registrySize reg ->
  let result := (CheckServiceStatus reg).1 in
  statusAgrees reg result
  /\ (forall h, h <> "OverallStatus" -> result !! h = VBool <$> lastLiveness h reg)
  /\ (NoDup (hosts reg) -> "OverallStatus" ∉ hosts reg ->
      mapsEachHostToItsLiveness reg result).
Proof.
  intros Hn result. split; [|split].
  - apply CheckServiceStatus_statusAgrees, Hn.
  - intros h Hne. apply CheckServiceStatus_lookup, Hne.
  - intros Hnd Hkey c Hc. subst result.
    rewrite CheckServiceStatus_lookup.
    + rewrite (lastLiveness_NoDup _ _ Hnd Hc). reflexivity.
    + intros Heq. apply Hkey. rewrite <- Heq.
      unfold hosts. apply list_elem_of_fmap. exists c. split; [reflexivity | exact Hc].
Qed.

Lemma CheckServiceStatus_status_and_mapping_witness :
  0 < registrySize threeBrokers
  /\ statusAgrees threeBrokers (CheckServiceStatus threeBrokers).1
  /\ (forall h, h <> "OverallStatus" ->
      (CheckServiceStatus threeBrokers).1 !! h = VBool <$> lastLiveness h threeBrokers)
  /\ (NoDup (hosts threeBrokers) -> "OverallStatus" ∉ hosts threeBrokers ->
      mapsEachHostToItsLiveness threeBrokers (CheckServiceStatus threeBrokers).1).
Proof.
  split; [reflexivity|].
  apply (CheckServiceStatus_status_and_mapping threeBrokers). reflexivity.
Defined.

(** C2 as stated fails on a registry with a repeated host: the first entry
    for ["hostA"] is live, the second is not, and the map says [false] for
    the host of both.  It also fails for a broker whose host is the string
    ["OverallStatus"]: that key holds the status, so the host is mapped to no
    boolean at all. *)
Lemma CheckServiceStatus_mapping_counterexample :
  (0 < registrySize repeatedHost
   /\ ~ (statusAgrees repeatedHost (CheckServiceStatus repeatedHost).1
         /\ mapsEachHostToItsLiveness repeatedHost (CheckServiceStatus repeatedHost).1))
  /\ (0 < registrySize statusKeyHost
      /\ ~ exists b, (CheckServiceStatus statusKeyHost).1 !! "OverallStatus"
                     = Some (VBool b)).
Proof.
  split; (split; [reflexivity|]).
  - intros [_ Hmap].
    specialize (Hmap (broker "hostA" (Some 1%nat))).
    assert (Hin : broker "hostA" (Some 1%nat) ∈ repeatedHost) by left.
    specialize (Hmap Hin).
    rewrite CheckServiceStatus_lookup in Hmap by discriminate.
    vm_compute in Hmap. discriminate.
  - intros [b Hb]. unfold CheckServiceStatus in Hb. cbn [fst] in Hb.
    rewrite lookup_insert_eq in Hb. discriminate.
Qed.

(** ** Connection registry and reload *)



(** C4 at the failing input: the file is read, [json.Unmarshal] reports a
    type mismatch on the host of the second broker, the failure is logged at
    line 212, and the loop still runs: a registry that was empty now holds a
    connection for each decoded entry. *)
Theorem parse_failure_still_appends :
  ReadFile (world (inl mistypedHostFile)) "activemqconfig.json" = inl mistypedHostFile
  /\ (Unmarshal (world (inl mistypedHostFile)) mistypedHostFile).2 <> None
  /\ ActiveMQs startState = []
  /\ hosts (ActiveMQs
       (initializeActiveMQConnection (world (inl mistypedHostFile)) sampleConfig
          (Some 7%nat) (Some {| MongoDBClient := 8%nat |}) (Some 9%nat)
          startState).2) = ["hostA"; ""].
Proof.
  split; [reflexivity|]. split; [discriminate|]. split; reflexivity.
Qed.

(** ** HTTP control surface *)

(** C5: with an API key configured, each handler checks the method first
    and the [Authorization] header second.  A wrong method is answered 405
    whatever the header; a right method with a header different from
    ["apikey " + key] is answered 401 with the fixed text [Unauthorized]; in
    both cases the process state is left as it was.  A request passing both
    checks runs the handler body. *)
Theorem handlers_check_method_then_auth (ext : External) (gconfig : GlobalConfig)
    (key : string) (r : Request) (st : State) :
  AppServer gconfig !! "apikey" = Some (VString key) ->
  let authorized := Header_Get (Header r) "Authorization" = "apikey " +:+ key in
  ((Method r <> "GET" ->
    healthHandler ext gconfig r st = (Ret (http_Error "Method not allowed" 405), st))
   /\ (Method r = "GET" -> ~ authorized ->
       healthHandler ext gconfig r st = (Ret (http_Error "Unauthorized" 401), st))
   /\ (Method r = "GET" -> authorized ->
       healthHandler ext gconfig r st = healthBody ext st))
  /\ ((Method r <> "POST" ->
       reloadconfigHandler ext gconfig r st
       = (Ret (http_Error "Method not allowed" 405), st))
      /\ (Method r = "POST" -> ~ authorized ->
          reloadconfigHandler ext gconfig r st
          = (Ret (http_Error "Unauthorized" 401), st))
      /\ (Method r = "POST" -> authorized ->
          reloadconfigHandler ext gconfig r st = reloadconfigBody ext gconfig st)).
Proof.
  intros Hkey authorized. split; (split; [|split]).
  - apply healthHandler_wrong_method.
  - intros Hm Hauth. exact (healthHandler_unauthorized ext gconfig r st key Hkey Hm Hauth).
  - intros Hm Hauth. exact (healthHandler_authorized ext gconfig r st key Hkey Hm Hauth).
  - apply reloadconfigHandler_wrong_method.
  - intros Hm Hauth.
    exact (reloadconfigHandler_unauthorized ext gconfig r st key Hkey Hm Hauth).
  - intros Hm Hauth.
    exact (reloadconfigHandler_authorized ext gconfig r st key Hkey Hm Hauth).
Qed.

Lemma handlers_check_method_then_auth_witness :
  AppServer sampleConfig !! "apikey" = Some (VString "secret")
  /\ healthHandler (world (inl twoBrokersFile)) sampleConfig
       (request "POST" (Some "apikey secret")) startState
     = (Ret (http_Error "Method not allowed" 405), startState)
  /\ reloadconfigHandler (world (inl twoBrokersFile)) sampleConfig
       (request "POST" (Some "apikey  secret")) startState
     = (Ret (http_Error "Unauthorized" 401), startState).
Proof.
  split; [reflexivity|].
  split.
  - apply (handlers_check_method_then_auth (world (inl twoBrokersFile)) sampleConfig
             "secret" (request "POST" (Some "apikey secret")) startState);
      [reflexivity | discriminate].
  - apply (handlers_check_method_then_auth (world (inl twoBrokersFile)) sampleConfig
             "secret" (request "POST" (Some "apikey  secret")) startState);
      [reflexivity | reflexivity | discriminate].
Defined.

(** C10: the error result of [CheckServiceStatus] is nil for every
    registry, so neither caller takes its error branch: a heartbeat tick
    writes no log entry at line 134 and the [/health] handler none at line
    420. *)
Theorem CheckServiceStatus_error_is_nil :
  (forall reg : list ActiveMQ, (CheckServiceStatus reg).2 = None)
  /\ (forall ext gconfig DB DocDB bus st,
        exists new,
          trace (HeartBeat ext gconfig DB DocDB bus st).2 = trace st ++ new
          /\ Forall (fun e => forall lvl msg, e <> Log lvl 134 msg) new)
  /\ (forall ext gconfig r st,
        exists new,
          trace (healthHandler ext gconfig r st).2 = trace st ++ new
          /\ Forall (fun e => forall lvl msg, e <> Log lvl 420 msg) new).
Proof.
  split; [|split].
  - intros reg. apply CheckServiceStatus_nil.
  - intros ext gconfig DB [doc|] bus st.
    + rewrite HeartBeat_trace. eexists. split; [reflexivity|].
      destruct (CallWebService ext _ "POST");
        repeat constructor; intros lvl msg; discriminate.
    + rewrite HeartBeat_nil_DocDB. exists []. split; [|constructor].
      simpl. rewrite app_nil_r. reflexivity.
  - intros ext gconfig r st. exists []. split; [|constructor].
    rewrite app_nil_r. f_equal.
    unfold healthHandler.
    destruct (negb (Method r =? "GET")%string); [reflexivity|].
    unfold mbind, M_bind, assertString.
    destruct (AppServer gconfig !! "apikey") as [[| | |key|]|]; try reflexivity.
    unfold mret, M_ret.
    destruct (negb _); [reflexivity | apply healthBody_no_log].
Qed.

(** ** Port selection *)

(** C6: over the range 8800..8900, for every set of occupied ports: a port
    of the range that is free while all smaller ports of the range are
    occupied is the one returned, with a nil error; and when every port of
    the range is occupied the result is the error "no available port found in
    the range 8800-8900", with 0 in place of a port. *)
Theorem getAvailablePort_smallest_free (occupied : gset Z) :
  (forall p, 8800 <= p <= 8900 -> p ∉ occupied ->
             (forall q, 8800 <= q < p -> q ∈ occupied) ->
             getAvailablePort occupied 8800 8900 = (p, None))
  /\ ((forall q, 8800 <= q <= 8900 -> q ∈ occupied) ->
      getAvailablePort occupied 8800 8900
      = (0, Some "no available port found in the range 8800-8900"))
  /\ (forall p, (getAvailablePort occupied 8800 8900).2 = None ->
                (getAvailablePort occupied 8800 8900).1 = p ->
                8800 <= p <= 8900 /\ p ∉ occupied)
  /\ ((getAvailablePort occupied 8800 8900).2 <> None ->
      forall q, 8800 <= q <= 8900 -> q ∈ occupied).
Proof.
  pose proof (getAvailablePort_spec occupied 8800 8900) as H.
  destruct (getAvailablePort occupied 8800 8900) as [p' [err|]].
  - destruct H as (-> & -> & Hall).
    split; [|split; [|split]].
    + intros p Hp Hfree _. exfalso. apply Hfree, Hall, Hp.
    + intros _. reflexivity.
    + intros p Hnone. discriminate.
    + intros _. exact Hall.
  - destruct H as (Hrange & Hfree & Hbelow).
    split; [|split; [|split]].
    + intros p Hp Hpfree Hpbelow. f_equal.
      destruct (Z.lt_trichotomy p p') as [Hlt | [Heq | Hgt]].
      * exfalso. apply Hpfree, Hbelow. lia.
      * symmetry. exact Heq.
      * exfalso. apply Hfree, Hpbelow. lia.
    + intros Hall. exfalso. apply Hfree, Hall, Hrange.
    + intros p _ <-. simpl. split; [exact Hrange | exact Hfree].
    + intros Hne. exfalso. apply Hne. reflexivity.
Qed.

Lemma getAvailablePort_smallest_free_witness :
  getAvailablePort {[8800; 8801; 8803]} 8800 8900 = (8802, None).
Proof.
  apply (getAvailablePort_smallest_free {[8800; 8801; 8803]}).
  - lia.
  - rewrite !elem_of_union, !elem_of_singleton. lia.
  - intros q Hq. rewrite !elem_of_union, !elem_of_singleton. lia.
Defined.

(** ** Shutdown *)




(** ** Database pool settings *)



(** ** Start-up ordering *)




(** * Further properties of the code *)

(** ** Status aggregation *)

Lemma lastLiveness_is_Some (h : string) (reg : list ActiveMQ) :
  is_Some (lastLiveness h reg) <-> h ∈ hosts reg.
Proof.
  induction reg as [|c reg IH]; cbn [lastLiveness hosts map].
  - split; [intros [b Hb]; discriminate Hb | intros Hin; inversion Hin].
  - fold (hosts reg). rewrite elem_of_cons, <- IH.
    destruct (lastLiveness h reg) as [b|].
    + split; [intros _; right; eexists; reflexivity | intros _; eexists; reflexivity].
    + case_decide as Hh.
      * split; [intros _; left; congruence | intros _; eexists; reflexivity].
      * split; [intros [b Hb]; discriminate Hb|].
        intros [Heq | [b Hb]]; [congruence | discriminate Hb].
Qed.

Lemma size_list_to_set_le (l : list string) :
  (size (list_to_set l : gset string) <= length l)%nat.
Proof.
  induction l as [|x l IH]; cbn [list_to_set foldr length].
  - rewrite size_empty. lia.
  - rewrite size_union_alt, size_singleton.
    assert (size (list_to_set l ∖ {[x]} : gset string)
            <= size (list_to_set l : gset string))%nat
      by (apply subseteq_size, subseteq_difference_l; reflexivity).
    lia.
Qed.

Lemma liveCount_Permutation (reg reg' : list ActiveMQ) :
  reg ≡ₚ reg' -> liveCount reg = liveCount reg'.
Proof.
  intros Hperm. unfold liveCount. f_equal.
  apply Permutation_length. rewrite Hperm. reflexivity.
Qed.

(** X1: for every registry, empty or not, the overall status is Unavailable
    exactly when no entry is live, PartiallyAvailable exactly when some but
    not all are, and OK exactly when there is at least one entry and all are
    live. *)
Theorem overall_status_classification (reg : list ActiveMQ) :
  (overallStatus (CheckServiceStatus reg).1 = Some StatusUnavailable
   <-> liveCount reg = 0)
  /\ (overallStatus (CheckServiceStatus reg).1 = Some StatusPartiallyAvailable
      <-> 0 < liveCount reg < registrySize reg)
  /\ (overallStatus (CheckServiceStatus reg).1 = Some StatusOK
      <-> 0 < liveCount reg /\ liveCount reg = registrySize reg).
Proof.
  rewrite overallStatus_CheckServiceStatus.
  pose proof (liveCount_bounds reg) as Hb.
  unfold OverAllStatus.
  destruct (Z.eqb_spec (liveCount reg) 0) as [Hz|Hz];
    destruct (Z.ltb_spec 0 (registrySize reg - liveCount reg)) as [Hu|Hu];
    destruct (Z.ltb_spec 0 (liveCount reg)) as [Hk|Hk]; cbn [andb];
    (split; [|split]); (split; intros Hs; [try discriminate Hs | ]);
    try lia; reflexivity.
Qed.

(** X2: the keys of the result are the hosts of the registry and the key
    ["OverallStatus"], nothing else; so the result never has more than N + 1
    entries. *)
Theorem CheckServiceStatus_keys (reg : list ActiveMQ) :
  dom (CheckServiceStatus reg).1 = {[ "OverallStatus" ]} ∪ list_to_set (hosts reg)
  /\ (size (CheckServiceStatus reg).1 <= S (length reg))%nat.
Proof.
  assert (Hdom : dom (CheckServiceStatus reg).1
                 = {[ "OverallStatus" ]} ∪ list_to_set (hosts reg)).
  { apply set_eq. intros h.
    rewrite elem_of_dom, elem_of_union, elem_of_singleton, elem_of_list_to_set.
    destruct (decide (h = "OverallStatus")) as [-> | Hne].
    - unfold CheckServiceStatus. cbn [fst]. rewrite lookup_insert_eq.
      split; [intros _; left; reflexivity | intros _; eexists; reflexivity].
    - rewrite (CheckServiceStatus_lookup reg h Hne), <- lastLiveness_is_Some.
      rewrite fmap_is_Some. split; [intros H; right; exact H|].
      intros [Heq | H]; [congruence | exact H]. }
  split; [exact Hdom|].
  rewrite <- size_dom, Hdom, size_union_alt, size_singleton.
  assert (size (list_to_set (hosts reg) ∖ {["OverallStatus"]} : gset string)
          <= length reg)%nat; [|lia].
  etransitivity; [apply subseteq_size, subseteq_difference_l; reflexivity|].
  etransitivity; [apply size_list_to_set_le|].
  unfold hosts. rewrite length_map. reflexivity.
Qed.

(** X3: the overall status does not depend on the order of the registry. *)
Theorem overall_status_order_independent (reg reg' : list ActiveMQ) :
  reg ≡ₚ reg' ->
  overallStatus (CheckServiceStatus reg).1 = overallStatus (CheckServiceStatus reg').1.
Proof.
  intros Hperm. rewrite !overallStatus_CheckServiceStatus.
  unfold registrySize.
  rewrite (liveCount_Permutation reg reg' Hperm), (Permutation_length Hperm).
  reflexivity.
Qed.

Lemma overall_status_order_independent_witness :
  threeBrokers ≡ₚ rev threeBrokers
  /\ overallStatus (CheckServiceStatus threeBrokers).1
     = overallStatus (CheckServiceStatus (rev threeBrokers)).1.
Proof.
  assert (Hperm : threeBrokers ≡ₚ rev threeBrokers)
    by apply Permutation_rev.
  split; [exact Hperm|].
  exact (overall_status_order_independent threeBrokers (rev threeBrokers) Hperm).
Defined.

(** ** Frames: what the operations leave alone *)

Section Frames.
Context {A B : Type}.
Implicit Types (m : M A) (f : A -> M B).

Lemma onlyTraces_bind m f :
  onlyTraces m -> (forall a, onlyTraces (f a)) -> onlyTraces (m ≫= f).
Proof.
  intros Hm Hf st. unfold mbind, M_bind.
  destruct (Hm st) as [new1 H1].
  destruct (m st) as [[a|msg|code] st1]; cbn [snd] in H1 |- *.
  - destruct (Hf a st1) as [new2 H2]. exists (new1 ++ new2).
    rewrite H2, H1. unfold withRegistry.
    cbn [ActiveMQs nodecomponent monitorPort monitorServer dbconn trace].
    rewrite app_assoc. reflexivity.
  - exists new1. exact H1.
  - exists new1. exact H1.
Qed.

Lemma onlyTraces_ret (a : A) : onlyTraces (mret a).
Proof.
  intros st. exists []. cbn. rewrite app_nil_r, withRegistry_id. reflexivity.
Qed.

Lemma onlyTraces_panic (msg : string) : onlyTraces (@panic A msg).
Proof.
  intros st. exists []. cbn. rewrite app_nil_r, withRegistry_id. reflexivity.
Qed.

Lemma onlyTraces_Exit (code : Z) : onlyTraces (@os_Exit A code).
Proof.
  intros st. exists []. cbn. rewrite app_nil_r, withRegistry_id. reflexivity.
Qed.

Lemma onlyTraces_kept m : onlyTraces m -> registryKept m.
Proof. intros Hm st. destruct (Hm st) as [new ->]. reflexivity. Qed.

Lemma registryKept_grows m : registryKept m -> registryGrows m.
Proof. intros Hm st. rewrite (Hm st). reflexivity. Qed.

Lemma registryKept_bind m f :
  registryKept m -> (forall a, registryKept (f a)) -> registryKept (m ≫= f).
Proof.
  intros Hm Hf st. unfold mbind, M_bind. specialize (Hm st).
  destruct (m st) as [[a|msg|code] st1]; cbn [snd] in Hm |- *;
    [rewrite (Hf a st1)|..]; exact Hm.
Qed.

Lemma registryGrows_bind m f :
  registryGrows m -> (forall a, registryGrows (f a)) -> registryGrows (m ≫= f).
Proof.
  intros Hm Hf st. unfold mbind, M_bind. specialize (Hm st).
  destruct (m st) as [[a|msg|code] st1]; cbn [snd] in Hm |- *;
    [etransitivity; [exact Hm | apply Hf]|..]; exact Hm.
Qed.
End Frames.

Lemma onlyTraces_get : onlyTraces get.
Proof.
  intros st. exists []. cbn. rewrite app_nil_r, withRegistry_id. reflexivity.
Qed.

Lemma onlyTraces_emit (e : Event) : onlyTraces (emit e).
Proof. intros st. exists [e]. reflexivity. Qed.

Lemma onlyTraces_when (c : bool) (body : M unit) :
  onlyTraces body -> onlyTraces (when c body).
Proof. intros Hb. destruct c; [exact Hb | apply onlyTraces_ret]. Qed.

Lemma onlyTraces_logIfError (line : nat) (prefix : string) (err : option error) :
  onlyTraces (logIfError line prefix err).
Proof. destruct err; [apply onlyTraces_emit | apply onlyTraces_ret]. Qed.

Lemma onlyTraces_assertString (v : option value) : onlyTraces (assertString v).
Proof.
  destruct v as [[| | |s|]|]; first [apply onlyTraces_ret | apply onlyTraces_panic].
Qed.

Create HintDb frames.
#[local] Hint Resolve onlyTraces_bind onlyTraces_ret onlyTraces_panic onlyTraces_Exit
  onlyTraces_get onlyTraces_emit onlyTraces_when onlyTraces_logIfError
  onlyTraces_assertString : frames.
#[local] Hint Extern 1 (onlyTraces (ilog_Error _ _)) => apply onlyTraces_emit : frames.
#[local] Hint Extern 1 (onlyTraces (ilog_Debug _ _)) => apply onlyTraces_emit : frames.
#[local] Hint Extern 2 (onlyTraces (if ?c then _ else _)) => destruct c : frames.
#[local] Hint Extern 2 (onlyTraces (match ?x with Some _ => _ | None => _ end)) =>
  destruct x : frames.
#[local] Hint Extern 3 (forall _, onlyTraces _) => intro : frames.

Section FrameOfOperations.
Context (ext : External) (gconfig : GlobalConfig).

Lemma closeResources_onlyTraces : onlyTraces closeResources.
Proof.
  unfold closeResources. apply onlyTraces_bind; [apply onlyTraces_get|].
  intros st. auto 10 with frames.
Qed.

Lemma healthBody_onlyTraces : onlyTraces (healthBody ext).
Proof.
  unfold healthBody. apply onlyTraces_bind; [apply onlyTraces_get|].
  intros st. destruct (nc_DocDB _); [|apply onlyTraces_panic].
  destruct (nc_IACMessageBusClient _); [|apply onlyTraces_panic].
  cbn [CheckServiceStatus]. auto with frames.
Qed.

Lemma healthHandler_onlyTraces (r : Request) : onlyTraces (healthHandler ext gconfig r).
Proof.
  unfold healthHandler.
  destruct (negb _); [apply onlyTraces_ret|].
  apply onlyTraces_bind; [apply onlyTraces_assertString|].
  intros key. destruct (negb _); [apply onlyTraces_ret | apply healthBody_onlyTraces].
Qed.

Lemma HeartBeat_onlyTraces (DB : option sqlDB) (DocDB : option DocDB)
    (bus : option Client) :
  onlyTraces (HeartBeat ext gconfig DB DocDB bus).
Proof.
  unfold HeartBeat. destruct DocDB as [doc|]; [|apply onlyTraces_panic].
  apply onlyTraces_bind; [apply onlyTraces_get|].
  intros st. cbn [CheckServiceStatus]. auto 10 with frames.
Qed.

Lemma go_onlyTraces (body : M unit) : onlyTraces (go body).
Proof.
  unfold go. apply onlyTraces_bind; [apply onlyTraces_get|].
  intros st. apply onlyTraces_emit.
Qed.

Lemma waitForTerminationSignal_onlyTraces :
  onlyTraces (waitForTerminationSignal ext gconfig).
Proof.
  unfold waitForTerminationSignal.
  apply onlyTraces_bind; [apply closeResources_onlyTraces|]. intros _.
  apply onlyTraces_bind; [apply onlyTraces_emit|]. intros _.
  apply onlyTraces_bind; [apply onlyTraces_logIfError|]. intros _.
  apply onlyTraces_bind; [apply go_onlyTraces|]. intros _.
  apply onlyTraces_bind; [apply onlyTraces_get|]. intros st.
  auto 10 with frames.
Qed.

Lemma initializeActiveMQConnection_grows (DB : option sqlDB) (DocDB : option DocDB)
    (bus : option Client) :
  registryGrows (initializeActiveMQConnection ext gconfig DB DocDB bus).
Proof. intros st. apply initializeActiveMQConnection_prefix. Qed.

Lemma reloadconfigHandler_grows (r : Request) :
  registryGrows (reloadconfigHandler ext gconfig r).
Proof.
  unfold reloadconfigHandler.
  destruct (negb _);
    [apply registryKept_grows, onlyTraces_kept, onlyTraces_ret|].
  apply registryGrows_bind;
    [apply registryKept_grows, onlyTraces_kept, onlyTraces_assertString|].
  intros key.
  destruct (negb _);
    [apply registryKept_grows, onlyTraces_kept, onlyTraces_ret|].
  unfold reloadconfigBody.
  apply registryGrows_bind;
    [apply registryKept_grows, onlyTraces_kept, onlyTraces_get|].
  intros st.
  destruct (nc_IACMessageBusClient _);
    [|apply registryKept_grows, onlyTraces_kept, onlyTraces_panic].
  apply registryGrows_bind; [apply initializeActiveMQConnection_grows|].
  intros _. apply registryKept_grows, onlyTraces_kept, onlyTraces_ret.
Qed.
End FrameOfOperations.

Section FrameOfStartup.
Context (ext : External) (sx : StartupExternal).

Lemma initializedDocuments_onlyTraces (gconfig : LoadedConfig) :
  onlyTraces (initializedDocuments sx gconfig).
Proof.
  unfold initializedDocuments.
  destruct (DocumentConfig_nil gconfig); [apply onlyTraces_ret|].
  apply onlyTraces_bind; [apply onlyTraces_assertString | intros ty].
  apply onlyTraces_bind; [apply onlyTraces_assertString | intros conn].
  apply onlyTraces_bind; [apply onlyTraces_assertString | intros name].
  repeat (destruct (String.eqb _ ""); [auto with frames|]).
  apply onlyTraces_ret.
Qed.

Lemma update_dbconn_kept (f : DbConn -> DbConn) : registryKept (update_dbconn f).
Proof. intros st. reflexivity. Qed.

Lemma initializeDatabase_kept (gconfig : GlobalConfig) :
  registryKept (initializeDatabase ext gconfig).
Proof.
  unfold initializeDatabase.
  destruct (isNil _); [apply onlyTraces_kept; auto with frames|].
  destruct (isNil _); [apply onlyTraces_kept; auto with frames|].
  apply registryKept_bind; [apply onlyTraces_kept, onlyTraces_assertString | intros ty].
  apply registryKept_bind; [apply update_dbconn_kept | intros _].
  apply registryKept_bind; [apply onlyTraces_kept, onlyTraces_assertString | intros conn].
  do 3 (apply registryKept_bind; [apply update_dbconn_kept | intros _]).
  apply registryKept_bind; [apply onlyTraces_kept, onlyTraces_get | intros st].
  destruct (ConnectDB ext (dbconn st)) as [db err].
  apply registryKept_bind; [apply update_dbconn_kept | intros _].
  apply onlyTraces_kept. destruct err; auto with frames.
Qed.

Lemma startMonitorServer_kept : registryKept (startMonitorServer ext).
Proof.
  unfold startMonitorServer.
  destruct (getAvailablePort _ 8800 8900) as [port err].
  apply registryKept_bind; [intros st; reflexivity | intros _].
  apply registryKept_bind; [apply onlyTraces_kept, onlyTraces_logIfError | intros _].
  intros st. reflexivity.
Qed.

Lemma mainResources_kept : registryKept (mainResources ext sx).
Proof.
  unfold mainResources.
  destruct (LoadGlobalConfig sx) as [gconfig|err];
    [|apply onlyTraces_kept; auto with frames].
  apply registryKept_bind; [apply initializeDatabase_kept | intros DB].
  apply registryKept_bind; [apply onlyTraces_kept; auto with frames | intros _].
  apply registryKept_bind;
    [apply onlyTraces_kept, initializedDocuments_onlyTraces | intros docDB].
  apply registryKept_bind; [apply onlyTraces_kept; auto with frames | intros _].
  destruct (iacmb_Connect sx) as [bus err].
  apply registryKept_bind; [apply onlyTraces_kept, onlyTraces_logIfError | intros _].
  apply registryKept_bind; [intros st; reflexivity | intros _].
  apply onlyTraces_kept, onlyTraces_ret.
Qed.
End FrameOfStartup.

Lemma reloads_length (ext : External) (gconfig : GlobalConfig)
    (DB : option sqlDB) (DocDB : option DocDB) (bus : option Client)
    (data : string) (n : nat) (st : State) :
  ReadFile ext "activemqconfig.json" = inl data ->
  length (ActiveMQs (reloads ext gconfig DB DocDB bus n st))
  = (length (ActiveMQs st) + n * length (configs_ActiveMQs (Unmarshal ext data).1))%nat.
Proof.
  intros Hread. unfold reloads. induction n as [|n IH].
  - cbn. lia.
  - rewrite Nat.iter_succ.
    rewrite (initializeActiveMQConnection_read ext gconfig DB DocDB bus data _ Hread).
    cbn [snd withRegistry ActiveMQs]. rewrite length_app, length_map, IH. lia.
Qed.

(** ** Connection registry *)

(** X4: when the broker-configuration file cannot be read, the registry
    operation returns normally, writes one debug entry with the error, and
    changes nothing else: the registry and every other variable stay as they
    were. *)
Theorem read_failure_changes_nothing (ext : External) (gconfig : GlobalConfig)
    (DB : option sqlDB) (DocDB : option DocDB) (bus : option Client)
    (err : error) (st : State) :
  ReadFile ext "activemqconfig.json" = inr err ->
  initializeActiveMQConnection ext gconfig DB DocDB bus st
  = (Ret tt,
     withRegistry st (ActiveMQs st)
       (trace st ++ [Log LDebug 204 ("failed to read configuration file: " +:+ err)])).
Proof. apply initializeActiveMQConnection_read_error. Qed.

Lemma read_failure_changes_nothing_witness :
  ReadFile crowdedWorld "activemqconfig.json"
  = inr "open activemqconfig.json: no such file or directory"
  /\ ActiveMQs (initializeActiveMQConnection crowdedWorld sampleConfig
                  None None None startState).2 = [].
Proof.
  split; [reflexivity|].
  rewrite (read_failure_changes_nothing crowdedWorld sampleConfig None None None
             "open activemqconfig.json: no such file or directory" startState eq_refl).
  reflexivity.
Defined.

(** X5: when the file is read but decoding reports an error, the registry
    is left as it was exactly when the decoder filled in no broker at all;
    otherwise a connection is appended for each broker it did decode. *)
Theorem parse_failure_unchanged_iff_nothing_decoded (ext : External)
    (gconfig : GlobalConfig) (DB : option sqlDB) (DocDB : option DocDB)
    (bus : option Client) (data : string) (e : error) (st : State) :
  ReadFile ext "activemqconfig.json" = inl data ->
  (Unmarshal ext data).2 = Some e ->
  (ActiveMQs (initializeActiveMQConnection ext gconfig DB DocDB bus st).2 = ActiveMQs st
   <-> configs_ActiveMQs (Unmarshal ext data).1 = [])
  /\ length (ActiveMQs (initializeActiveMQConnection ext gconfig DB DocDB bus st).2)
     = (length (ActiveMQs st) + length (configs_ActiveMQs (Unmarshal ext data).1))%nat.
Proof.
  intros Hread Herr. split.
  - exact (initializeActiveMQConnection_parse_error ext gconfig DB DocDB bus
             data e st Hread Herr).
  - rewrite (initializeActiveMQConnection_read ext gconfig DB DocDB bus data st Hread).
    cbn [snd withRegistry ActiveMQs]. rewrite length_app, length_map. reflexivity.
Qed.

Lemma parse_failure_unchanged_iff_nothing_decoded_witness :
  ReadFile (world (inl "not json")) "activemqconfig.json" = inl "not json"
  /\ (Unmarshal (world (inl "not json")) "not json").2
     = Some "unexpected end of JSON input"
  /\ length (ActiveMQs (initializeActiveMQConnection (world (inl "not json"))
                          sampleConfig None None None startState).2) = 0%nat.
Proof.
  split; [reflexivity|]. split; [reflexivity|].
  rewrite (proj2 (parse_failure_unchanged_iff_nothing_decoded
                    (world (inl "not json")) sampleConfig None None None
                    "not json" "unexpected end of JSON input" startState
                    eq_refl eq_refl)).
  reflexivity.
Defined.

(** X6: the registry is append-only.  The registry operation and the
    [/reloadconfig] handler only ever extend it, keeping the existing entries
    in place, whatever the request, the configuration and the environment;
    every other operation ([/health], a heartbeat tick, the monitor start-up,
    shutdown, the database, document-store and resource initialisation)
    leaves it exactly as it is, also when it panics or exits. *)
Theorem registry_is_append_only (ext : External) (sx : StartupExternal)
    (gconfig : GlobalConfig) :
  (forall DB DocDB bus,
      registryGrows (initializeActiveMQConnection ext gconfig DB DocDB bus))
  /\ (forall r, registryGrows (reloadconfigHandler ext gconfig r))
  /\ (forall r, registryKept (healthHandler ext gconfig r))
  /\ (forall DB DocDB bus, registryKept (HeartBeat ext gconfig DB DocDB bus))
  /\ registryKept (startMonitorServer ext)
  /\ registryKept (waitForTerminationSignal ext gconfig)
  /\ registryKept (initializeDatabase ext gconfig)
  /\ (forall cfg, registryKept (initializedDocuments sx cfg))
  /\ registryKept (mainResources ext sx).
Proof.
  repeat split.
  - intros DB DocDB bus. apply initializeActiveMQConnection_grows.
  - intros r. apply reloadconfigHandler_grows.
  - intros r. apply onlyTraces_kept, healthHandler_onlyTraces.
  - intros DB DocDB bus. apply onlyTraces_kept, HeartBeat_onlyTraces.
  - apply startMonitorServer_kept.
  - apply onlyTraces_kept, waitForTerminationSignal_onlyTraces.
  - apply initializeDatabase_kept.
  - intros cfg. apply onlyTraces_kept, initializedDocuments_onlyTraces.
  - apply mainResources_kept.
Qed.

(** X7: reloads add up.  When the file can be read, [n] runs of the
    registry operation on it leave the registry with its old length plus [n]
    times the number of declared brokers: nothing is ever deduplicated or
    replaced. *)
Theorem reloads_accumulate (ext : External) (gconfig : GlobalConfig)
    (DB : option sqlDB) (DocDB : option DocDB) (bus : option Client)
    (data : string) (n : nat) (st : State) :
  ReadFile ext "activemqconfig.json" = inl data ->
  length (ActiveMQs (reloads ext gconfig DB DocDB bus n st))
  = (length (ActiveMQs st) + n * length (configs_ActiveMQs (Unmarshal ext data).1))%nat
  /\ ActiveMQs st `prefix_of` ActiveMQs (reloads ext gconfig DB DocDB bus n st).
Proof.
  intros Hread. split; [exact (reloads_length ext gconfig DB DocDB bus data n st Hread)|].
  unfold reloads. induction n as [|n IH]; [reflexivity|].
  rewrite Nat.iter_succ.
  etransitivity; [exact IH|]. apply initializeActiveMQConnection_prefix.
Qed.

Lemma reloads_accumulate_witness :
  ReadFile (world (inl twoBrokersFile)) "activemqconfig.json" = inl twoBrokersFile
  /\ length (ActiveMQs (reloads (world (inl twoBrokersFile)) sampleConfig
                          None None None 5 startState)) = 10%nat.
Proof.
  split; [reflexivity|].
  rewrite (proj1 (reloads_accumulate (world (inl twoBrokersFile)) sampleConfig
                    None None None twoBrokersFile 5 startState eq_refl)).
  reflexivity.
Defined.

(** ** HTTP handlers *)

Lemma healthHandler_state (ext : External) (gconfig : GlobalConfig)
    (r : Request) (st : State) :
  (healthHandler ext gconfig r st).2 = st.
Proof.
  unfold healthHandler.
  destruct (negb (Method r =? "GET")%string); [reflexivity|].
  unfold mbind, M_bind, assertString.
  destruct (AppServer gconfig !! "apikey") as [[| | |key|]|]; try reflexivity.
  unfold mret, M_ret.
  destruct (negb _); [reflexivity | apply healthBody_no_log].
Qed.

Lemma assertString_not_string (v : option value) (st : State) :
  (forall s, v <> Some (VString s)) ->
  assertString v st = (Panic "interface conversion: interface {} is not string", st).
Proof.
  intros Hv. destruct v as [[| | |s|]|]; try reflexivity.
  exfalso. exact (Hv s eq_refl).
Qed.

(** X8: [/health] is read-only.  Whatever the request and the
    configuration, and whether it answers or panics, the handler leaves every
    variable of the process and the trace exactly as they were. *)
Theorem health_is_read_only (ext : External) (gconfig : GlobalConfig)
    (r : Request) (st : State) :
  (healthHandler ext gconfig r st).2 = st.
Proof. apply healthHandler_state. Qed.

(** X9: a request with the right method and no [Authorization] header at
    all is answered 401 on both endpoints, and nothing is changed. *)
Theorem missing_authorization_is_401 (ext : External) (gconfig : GlobalConfig)
    (key : string) (r : Request) (st : State) :
  AppServer gconfig !! "apikey" = Some (VString key) ->
  Header r !! "Authorization" = None ->
  (Method r = "GET" ->
   healthHandler ext gconfig r st = (Ret (http_Error "Unauthorized" 401), st))
  /\ (Method r = "POST" ->
      reloadconfigHandler ext gconfig r st = (Ret (http_Error "Unauthorized" 401), st)).
Proof.
  intros Hkey Hnone.
  pose proof (missing_header_rejected r key Hnone) as Hrej.
  split; intros Hm.
  - exact (healthHandler_unauthorized ext gconfig r st key Hkey Hm Hrej).
  - exact (reloadconfigHandler_unauthorized ext gconfig r st key Hkey Hm Hrej).
Qed.

Lemma missing_authorization_is_401_witness :
  AppServer sampleConfig !! "apikey" = Some (VString "secret")
  /\ Header (request "GET" None) !! "Authorization" = None
  /\ healthHandler (world (inl twoBrokersFile)) sampleConfig (request "GET" None)
       startState
     = (Ret (http_Error "Unauthorized" 401), startState).
Proof.
  split; [reflexivity|]. split; [reflexivity|].
  apply (missing_authorization_is_401 (world (inl twoBrokersFile)) sampleConfig
           "secret" (request "GET" None) startState); reflexivity.
Defined.

(** X10: when the configuration holds no API key, or one that is not a
    string, a request with the right method is not answered 401: the type
    assertion in the comparison panics, on both endpoints and whatever the
    [Authorization] header, and nothing is changed.  A request with the wrong
    method is still answered 405. *)
Theorem no_api_key_panics (ext : External) (gconfig : GlobalConfig)
    (r : Request) (st : State) :
  (forall key, AppServer gconfig !! "apikey" <> Some (VString key)) ->
  (Method r = "GET" ->
   healthHandler ext gconfig r st
   = (Panic "interface conversion: interface {} is not string", st))
  /\ (Method r = "POST" ->
      reloadconfigHandler ext gconfig r st
      = (Panic "interface conversion: interface {} is not string", st))
  /\ (Method r <> "GET" ->
      healthHandler ext gconfig r st = (Ret (http_Error "Method not allowed" 405), st))
  /\ (Method r <> "POST" ->
      reloadconfigHandler ext gconfig r st
      = (Ret (http_Error "Method not allowed" 405), st)).
Proof.
  intros Hkey. split; [|split; [|split]].
  - intros Hm. unfold healthHandler.
    apply String.eqb_eq in Hm. rewrite Hm. cbn [negb].
    apply bind_Panic, assertString_not_string, Hkey.
  - intros Hm. unfold reloadconfigHandler.
    apply String.eqb_eq in Hm. rewrite Hm. cbn [negb].
    apply bind_Panic, assertString_not_string, Hkey.
  - apply healthHandler_wrong_method.
  - apply reloadconfigHandler_wrong_method.
Qed.

Lemma no_api_key_panics_witness :
  (forall key, AppServer bareConfig !! "apikey" <> Some (VString key))
  /\ healthHandler (world (inl twoBrokersFile)) bareConfig
       (request "GET" (Some "apikey secret")) startState
     = (Panic "interface conversion: interface {} is not string", startState).
Proof.
  assert (Hkey : forall key, AppServer bareConfig !! "apikey" <> Some (VString key))
    by (intros key; discriminate).
  split; [exact Hkey|].
  apply (no_api_key_panics (world (inl twoBrokersFile)) bareConfig
           (request "GET" (Some "apikey secret")) startState Hkey).
  reflexivity.
Defined.

(** X11: an authorised [GET /health] is answered 200 with the health probe
    result and the map of [CheckServiceStatus] for the current registry when
    both the document store and the message-bus client are present; when
    either of them is missing the handler panics instead of answering. *)
Theorem health_needs_all_resources (ext : External) (gconfig : GlobalConfig)
    (key : string) (r : Request) (st : State) :
  AppServer gconfig !! "apikey" = Some (VString key) ->
  Method r = "GET" ->
  Header_Get (Header r) "Authorization" = "apikey " +:+ key ->
  (forall doc bus,
      nc_DocDB (nodecomponent st) = Some doc ->
      nc_IACMessageBusClient (nodecomponent st) = Some bus ->
      healthHandler ext gconfig r st
      = (Ret (json_Response
                (BodyHealth
                   (CheckNodeHealth ext (nc_DB (nodecomponent st))
                      (MongoDBClient doc) (Some bus))
                   (CheckServiceStatus (ActiveMQs st)).1)),
         st))
  /\ (nc_DocDB (nodecomponent st) = None
      \/ nc_IACMessageBusClient (nodecomponent st) = None ->
      exists msg, healthHandler ext gconfig r st = (Panic msg, st)).
Proof.
  intros Hkey Hm Hauth.
  rewrite (healthHandler_authorized ext gconfig r st key Hkey Hm Hauth).
  unfold healthBody, mbind, M_bind, get. split.
  - intros doc bus -> ->. reflexivity.
  - intros [Hnone | Hnone].
    + rewrite Hnone. eexists. reflexivity.
    + rewrite Hnone. destruct (nc_DocDB (nodecomponent st)); eexists; reflexivity.
Qed.

Lemma health_needs_all_resources_witness :
  AppServer sampleConfig !! "apikey" = Some (VString "secret")
  /\ Method (request "GET" (Some "apikey secret")) = "GET"
  /\ exists msg,
       healthHandler (world (inl twoBrokersFile)) sampleConfig
         (request "GET" (Some "apikey secret")) emptyState
       = (Panic msg, emptyState).
Proof.
  split; [reflexivity|]. split; [reflexivity|].
  apply (health_needs_all_resources (world (inl twoBrokersFile)) sampleConfig
           "secret" (request "GET" (Some "apikey secret")) emptyState);
    [reflexivity | reflexivity | reflexivity | left; reflexivity].
Defined.



(** X13: without a message-bus client an authorised [POST /reloadconfig]
    panics before the file is read: no connection is created and nothing is
    changed. *)
Theorem reload_needs_message_bus (ext : External) (gconfig : GlobalConfig)
    (key : string) (r : Request) (st : State) :
  AppServer gconfig !! "apikey" = Some (VString key) ->
  Method r = "POST" ->
  Header_Get (Header r) "Authorization" = "apikey " +:+ key ->
  nc_IACMessageBusClient (nodecomponent st) = None ->
  reloadconfigHandler ext gconfig r st
  = (Panic "interface conversion: interface is nil, not signalr.Client", st).
Proof.
  intros Hkey Hm Hauth Hbus.
  rewrite (reloadconfigHandler_authorized ext gconfig r st key Hkey Hm Hauth).
  unfold reloadconfigBody, mbind, M_bind, get. rewrite Hbus. reflexivity.
Qed.

Lemma reload_needs_message_bus_witness :
  nc_IACMessageBusClient (nodecomponent emptyState) = None
  /\ reloadconfigHandler (world (inl twoBrokersFile)) sampleConfig
       (request "POST" (Some "apikey secret")) emptyState
     = (Panic "interface conversion: interface is nil, not signalr.Client", emptyState).
Proof.
  split; [reflexivity|].
  apply (reload_needs_message_bus (world (inl twoBrokersFile)) sampleConfig "secret"
           (request "POST" (Some "apikey secret")) emptyState); reflexivity.
Defined.

(** ** Heartbeat *)

(** X14: a heartbeat tick with a document store sends exactly one POST, to
    the app-server URL followed by [/IACComponents/heartbeat], logs its
    failure at line 150 if it fails, and changes nothing else; without a
    document store it panics before anything is sent. *)
Theorem heartbeat_tick (ext : External) (gconfig : GlobalConfig)
    (DB : option sqlDB) (bus : option Client) (st : State) :
  (forall doc,
      HeartBeat ext gconfig DB (Some doc) bus st
      = (Ret tt,
         withRegistry st (ActiveMQs st)
           (trace st
            ++ WebService (ConverttoString ext (AppServer gconfig !! "url")
                           +:+ "/IACComponents/heartbeat") "POST"
               :: match CallWebService ext
                          (ConverttoString ext (AppServer gconfig !! "url")
                           +:+ "/IACComponents/heartbeat") "POST" with
                  | Some e => [Log LError 150 ("HeartBeat error: " +:+ e)]
                  | None => []
                  end)))
  /\ HeartBeat ext gconfig DB None bus st
     = (Panic "invalid memory address or nil pointer dereference", st).
Proof.
  split; [intros doc; apply HeartBeat_trace | apply HeartBeat_nil_DocDB].
Qed.

(** ** Port selection and the monitor server *)

(** X15: for every range and every set of occupied ports,
    [getAvailablePort] returns the smallest free port of the range with a nil
    error, and 0 with the error naming the range when no port of the range is
    free; in particular an empty range (maxPort below minPort) always gives
    the error. *)
Theorem getAvailablePort_any_range (occupied : gset Z) (minPort maxPort : Z) :
  (forall p, minPort <= p <= maxPort -> p ∉ occupied ->
             (forall q, minPort <= q < p -> q ∈ occupied) ->
             getAvailablePort occupied minPort maxPort = (p, None))
  /\ ((forall q, minPort <= q <= maxPort -> q ∈ occupied) ->
      getAvailablePort occupied minPort maxPort
      = (0, Some ("no available port found in the range " +:+ Z_to_string minPort
                  +:+ "-" +:+ Z_to_string maxPort)))
  /\ (maxPort < minPort ->
      getAvailablePort occupied minPort maxPort
      = (0, Some ("no available port found in the range " +:+ Z_to_string minPort
                  +:+ "-" +:+ Z_to_string maxPort))).
Proof.
  pose proof (getAvailablePort_spec occupied minPort maxPort) as H.
  destruct (getAvailablePort occupied minPort maxPort) as [p' [err|]].
  - destruct H as (-> & -> & Hall).
    split; [|split].
    + intros p Hp Hfree _. exfalso. apply Hfree, Hall, Hp.
    + intros _. reflexivity.
    + intros _. reflexivity.
  - destruct H as (Hrange & Hfree & Hbelow).
    split; [|split].
    + intros p Hp Hpfree Hpbelow. f_equal.
      destruct (Z.lt_trichotomy p p') as [Hlt | [Heq | Hgt]].
      * exfalso. apply Hpfree, Hbelow. lia.
      * symmetry. exact Heq.
      * exfalso. apply Hfree, Hpbelow. lia.
    + intros Hall. exfalso. apply Hfree, Hall, Hrange.
    + intros Hempty. lia.
Qed.

Lemma getAvailablePort_any_range_witness :
  getAvailablePort {[ 9000 ]} 9001 9000
  = (0, Some "no available port found in the range 9001-9000").
Proof.
  apply (getAvailablePort_any_range {[ 9000 ]} 9001 9000). lia.
Defined.

Lemma getAvailablePort_loop_ext (occ1 occ2 : gset Z) (n : nat) (port maxPort : Z) :
  (forall q, port <= q <= maxPort -> (q ∈ occ1 <-> q ∈ occ2)) ->
  getAvailablePort_loop occ1 n port maxPort = getAvailablePort_loop occ2 n port maxPort.
Proof.
  revert port. induction n as [|n IH]; intros port Hagree; [reflexivity|].
  cbn [getAvailablePort_loop].
  destruct (Z.leb_spec port maxPort) as [Hle|Hgt]; [|reflexivity].
  assert (Hport : port ∈ occ1 <-> port ∈ occ2) by (apply Hagree; lia).
  rewrite (bool_decide_ext _ _ Hport).
  rewrite (IH (port + 1)); [reflexivity|].
  intros q Hq. apply Hagree. lia.
Qed.

(** X16: the answer depends only on the ports of the range: two sets of
    occupied ports that agree on the range give the same result, whatever is
    taken outside it. *)
Theorem getAvailablePort_only_reads_range (occ1 occ2 : gset Z) (minPort maxPort : Z) :
  (forall q, minPort <= q <= maxPort -> (q ∈ occ1 <-> q ∈ occ2)) ->
  getAvailablePort occ1 minPort maxPort = getAvailablePort occ2 minPort maxPort.
Proof.
  intros Hagree. unfold getAvailablePort.
  rewrite (getAvailablePort_loop_ext occ1 occ2 _ minPort maxPort Hagree).
  reflexivity.
Qed.

Lemma getAvailablePort_only_reads_range_witness :
  getAvailablePort {[ 8800; 80 ]} 8800 8900 = getAvailablePort {[ 8800; 9999 ]} 8800 8900.
Proof.
  apply (getAvailablePort_only_reads_range {[ 8800; 80 ]} {[ 8800; 9999 ]} 8800 8900).
  intros q Hq. rewrite !elem_of_union, !elem_of_singleton. lia.
Defined.





(** ** Shutdown *)

(** X19: without a message-bus client, shutdown closes the database pool
    and the document store (those that are present) and then panics at the
    type assertion: no close notification is sent, the monitor server is not
    shut down, and the process does not exit with code 0. *)
Theorem shutdown_without_message_bus (ext : External) (gconfig : GlobalConfig)
    (st : State) :
  nc_IACMessageBusClient (nodecomponent st) = None ->
  waitForTerminationSignal ext gconfig st
  = (Panic "interface conversion: interface is nil, not signalr.Client",
     withRegistry st (ActiveMQs st)
       (trace st
        ++ match nc_DB (nodecomponent st) with Some _ => [DBClose] | None => [] end
        ++ match nc_DocDB (nodecomponent st) with
           | Some _ => [MongoDisconnect]
           | None => []
           end)).
Proof.
  intros Hbus.
  destruct st as [reg [db doc bus] port srv d t]. cbn in Hbus. subst bus.
  unfold waitForTerminationSignal, closeResources, mbind, M_bind, get, when, emit,
    panic, withRegistry.
  destruct db, doc; cbn; rewrite <- ?app_assoc, ?app_nil_r; reflexivity.
Qed.

Lemma shutdown_without_message_bus_witness :
  nc_IACMessageBusClient (nodecomponent emptyState) = None
  /\ waitForTerminationSignal (world (inl twoBrokersFile)) sampleConfig emptyState
     = (Panic "interface conversion: interface is nil, not signalr.Client", emptyState).
Proof.
  split; [reflexivity|].
  exact (shutdown_without_message_bus (world (inl twoBrokersFile)) sampleConfig
           emptyState eq_refl).
Defined.

(** ** Database initialisation *)

(** X20: without a database type, or with a type and without a connection
    string (the key absent or holding nil), [initializeDatabase] logs which
    one is missing and returns nil; no variable of [dbconn] is assigned and
    the driver is not called. *)
Theorem database_missing_field_returns_nil (ext : External) (gconfig : GlobalConfig)
    (st : State) :
  (isNil (DatabaseConfig gconfig !! "type") = true ->
   initializeDatabase ext gconfig st
   = (Ret None,
      withRegistry st (ActiveMQs st)
        (trace st
         ++ [Log LError 298 "initialize Database error: DatabaseType is missing"])))
  /\ (isNil (DatabaseConfig gconfig !! "type") = false ->
      isNil (DatabaseConfig gconfig !! "connection") = true ->
      initializeDatabase ext gconfig st
      = (Ret None,
         withRegistry st (ActiveMQs st)
           (trace st
            ++ [Log LError 304
                  "initialize Database error: DatabaseConnection is missing"]))).
Proof.
  split.
  - intros Hty. unfold initializeDatabase. rewrite Hty. reflexivity.
  - intros Hty Hconn. unfold initializeDatabase. rewrite Hty, Hconn. reflexivity.
Qed.

Lemma database_missing_field_returns_nil_witness :
  isNil (DatabaseConfig bareConfig !! "type") = true
  /\ (initializeDatabase (world (inl twoBrokersFile)) bareConfig emptyState).1 = Ret None
  /\ dbconn (initializeDatabase (world (inl twoBrokersFile)) bareConfig emptyState).2
     = dbconn emptyState.
Proof.
  split; [reflexivity|].
  rewrite (proj1 (database_missing_field_returns_nil
                    (world (inl twoBrokersFile)) bareConfig emptyState) eq_refl).
  split; reflexivity.
Defined.



(** X22: with a type and a connection string, [initializeDatabase] calls
    the driver with the four settings assigned, stores the handle the driver
    leaves in [dbconn.DB], and returns that handle; when the driver reports
    an error it logs it and returns nil instead, while the settings and the
    handle stay assigned. *)
Theorem database_connect_outcome (ext : External) (gconfig : GlobalConfig)
    (st : State) (ty conn : string) :
  DatabaseConfig gconfig !! "type" = Some (VString ty) ->
  DatabaseConfig gconfig !! "connection" = Some (VString conn) ->
  let d := {| DatabaseType := ty; DatabaseConnection := conn;
              MaxIdleConns := poolSetting ext (DatabaseConfig gconfig !! "maxidleconns") 5;
              MaxOpenConns := poolSetting ext (DatabaseConfig gconfig !! "maxopenconns") 10;
              dbconn_DB := dbconn_DB (dbconn st) |} in
  (initializeDatabase ext gconfig st).1
  = Ret (match (ConnectDB ext d).2 with Some _ => None | None => (ConnectDB ext d).1 end)
  /\ dbconn (initializeDatabase ext gconfig st).2
     = {| DatabaseType := ty; DatabaseConnection := conn;
          MaxIdleConns := MaxIdleConns d; MaxOpenConns := MaxOpenConns d;
          dbconn_DB := (ConnectDB ext d).1 |}
  /\ trace (initializeDatabase ext gconfig st).2
     = trace st
       ++ match (ConnectDB ext d).2 with
          | Some e => [Log LError 337 ("initialize Database error: " +:+ e)]
          | None => []
          end.
Proof.
  intros Hty Hconn d. unfold initializeDatabase. rewrite Hty, Hconn.
  cbn [isNil assertString].
  unfold mbind, M_bind, mret, M_ret, update_dbconn, get.
  cbn [ActiveMQs nodecomponent monitorPort monitorServer dbconn trace
       DatabaseType DatabaseConnection MaxIdleConns MaxOpenConns dbconn_DB].
  fold d.
  destruct (ConnectDB ext d) as [db [e|]]; cbn; rewrite ?app_nil_r;
    repeat split; reflexivity.
Qed.

Lemma database_connect_outcome_witness :
  DatabaseConfig sampleConfig !! "type" = Some (VString "mysql")
  /\ (initializeDatabase crowdedWorld sampleConfig emptyState).1 = Ret None
  /\ trace (initializeDatabase crowdedWorld sampleConfig emptyState).2
     = [Log LError 337 "initialize Database error: dial tcp: connection refused"].
Proof.
  split; [reflexivity|].
  pose proof (database_connect_outcome crowdedWorld sampleConfig emptyState
                "mysql" "user:pw@tcp(db)/iac" eq_refl eq_refl) as (Hret & _ & Htrace).
  split; [exact Hret | exact Htrace].
Defined.

(** ** Document-store initialisation *)

Section Documents.
Context (sx : StartupExternal).

Lemma initializedDocuments_strings (gconfig : LoadedConfig) (st : State)
    (ty conn name : string) :
  DocumentConfig_nil gconfig = false ->
  DocumentConfig (loaded gconfig) !! "type" = Some (VString ty) ->
  DocumentConfig (loaded gconfig) !! "connection" = Some (VString conn) ->
  DocumentConfig (loaded gconfig) !! "database" = Some (VString name) ->
  initializedDocuments sx gconfig st
  = if String.eqb ty "" then
      (Ret None,
       withRegistry st (ActiveMQs st)
         (trace st
          ++ [Log LError 365 "initialize Documents error: DatabaseType is missing"]))
    else if String.eqb conn "" then
      (Ret None,
       withRegistry st (ActiveMQs st)
         (trace st
          ++ [Log LError 369
                "initialize Documents error: DatabaseConnection is missing"]))
    else if String.eqb name "" then
      (Ret None,
       withRegistry st (ActiveMQs st)
         (trace st
          ++ [Log LError 373 "initialize Documents error: DatabaseName is missing"]))
    else (Ret (documents_ConnectDB sx ty conn name), st).
Proof.
  intros Hnil Hty Hconn Hname. unfold initializedDocuments.
  rewrite Hnil, Hty, Hconn, Hname. cbn [assertString].
  unfold mbind, M_bind, mret, M_ret.
  destruct (String.eqb ty ""); [reflexivity|].
  destruct (String.eqb conn ""); [reflexivity|].
  destruct (String.eqb name ""); reflexivity.
Qed.
End Documents.

(** X23: with a document-store section whose three fields are strings,
    [initializedDocuments] connects and returns the handle exactly when none
    of them is empty, and then logs nothing; if one is empty it returns nil
    and logs the first empty one, in the order type, connection, database. *)
Theorem documents_connects_iff_fields_non_empty (sx : StartupExternal)
    (gconfig : LoadedConfig) (st : State) (ty conn name : string) :
  DocumentConfig_nil gconfig = false ->
  DocumentConfig (loaded gconfig) !! "type" = Some (VString ty) ->
  DocumentConfig (loaded gconfig) !! "connection" = Some (VString conn) ->
  DocumentConfig (loaded gconfig) !! "database" = Some (VString name) ->
  (ty <> "" -> conn <> "" -> name <> "" ->
   initializedDocuments sx gconfig st
   = (Ret (documents_ConnectDB sx ty conn name), st))
  /\ (ty = "" \/ conn = "" \/ name = "" ->
      exists line msg,
        initializedDocuments sx gconfig st
        = (Ret None, withRegistry st (ActiveMQs st) (trace st ++ [Log LError line msg]))
        /\ line = (if String.eqb ty "" then 365
                   else if String.eqb conn "" then 369 else 373)%nat).
Proof.
  intros Hnil Hty Hconn Hname.
  rewrite (initializedDocuments_strings sx gconfig st ty conn name Hnil Hty Hconn Hname).
  split.
  - intros H1 H2 H3.
    apply String.eqb_neq in H1, H2, H3. rewrite H1, H2, H3. reflexivity.
  - intros Hempty.
    destruct (String.eqb_spec ty "") as [_|Hty'];
      [eexists _, _; split; reflexivity|].
    destruct (String.eqb_spec conn "") as [_|Hconn'];
      [eexists _, _; split; reflexivity|].
    destruct (String.eqb_spec name "") as [_|Hname'];
      [eexists _, _; split; reflexivity|].
    exfalso. destruct Hempty as [H | [H | H]]; congruence.
Qed.

Lemma documents_connects_iff_fields_non_empty_witness :
  DocumentConfig fullConfig !! "type" = Some (VString "mongodb")
  /\ initializedDocuments (startup (inr "no config") (None, None))
       {| loaded := fullConfig; DocumentConfig_nil := false; LogConfig_nil := false |}
       emptyState
     = (Ret (Some {| MongoDBClient := 8%nat |}), emptyState).
Proof.
  split; [reflexivity|].
  apply (documents_connects_iff_fields_non_empty (startup (inr "no config") (None, None))
           {| loaded := fullConfig; DocumentConfig_nil := false; LogConfig_nil := false |}
           emptyState "mongodb" "mongodb://localhost:27017" "IAC_CFG");
    reflexivity || discriminate.
Defined.

(** X24: a nil document-store section makes [initializedDocuments] return
    nil without logging anything; a section that is there but lacks one of
    the keys type, connection and database, or holds something other than a
    string under it, makes it panic, where [initializeDatabase] would log and
    return nil.  Nothing is changed in either case. *)
Theorem documents_missing_key_panics (sx : StartupExternal) (gconfig : LoadedConfig)
    (st : State) :
  (DocumentConfig_nil gconfig = true ->
   initializedDocuments sx gconfig st = (Ret None, st))
  /\ (DocumentConfig_nil gconfig = false ->
      (exists k, k ∈ ["type"; "connection"; "database"]
                 /\ forall s, DocumentConfig (loaded gconfig) !! k <> Some (VString s)) ->
      initializedDocuments sx gconfig st
      = (Panic "interface conversion: interface {} is not string", st)).
Proof.
  split.
  - intros Hnil. unfold initializedDocuments. rewrite Hnil. reflexivity.
  - intros Hnil (k & Hk & Hnot). unfold initializedDocuments. rewrite Hnil.
    destruct (DocumentConfig (loaded gconfig) !! "type") as [[| | |ty|]|] eqn:Hty;
      try reflexivity.
    destruct (DocumentConfig (loaded gconfig) !! "connection") as [[| | |conn|]|] eqn:Hconn;
      try reflexivity.
    destruct (DocumentConfig (loaded gconfig) !! "database") as [[| | |name|]|] eqn:Hname;
      try reflexivity.
    exfalso.
    repeat (apply elem_of_cons in Hk as [-> | Hk]; [eapply Hnot; eassumption|]).
    inversion Hk.
Qed.

Lemma documents_missing_key_panics_witness :
  initializedDocuments (startup (inr "no config") (None, None))
    {| loaded := sampleConfig; DocumentConfig_nil := false; LogConfig_nil := false |}
    emptyState
  = (Panic "interface conversion: interface {} is not string", emptyState).
Proof.
  apply (documents_missing_key_panics (startup (inr "no config") (None, None))
           {| loaded := sampleConfig; DocumentConfig_nil := false;
              LogConfig_nil := false |} emptyState).
  - reflexivity.
  - exists "type". split; [left|]. intros s. discriminate.
Defined.

(** ** Start-up and the goroutines of main *)

Lemma afterSchedule_reachable (schedule : list Goroutine) :
  reachable (afterSchedule schedule).
Proof.
  unfold afterSchedule.
  destruct (run schedule initialSched) as [s|] eqn:Hrun; cbn [default].
  - exact (run_reachable schedule s Hrun).
  - apply rtc_refl.
Qed.

Lemma resources_before_goroutines (s : Sched) :
  reachable s ->
  forall g i a, g <> GMain -> a ∈ resourceInit -> precedes a (g, i) (history s).
Proof.
  unfold reachable. revert s.
  apply (rtc_ind_r
           (fun s => forall g i a, g <> GMain -> a ∈ resourceInit ->
                                   precedes a (g, i) (history s)) initialSched).
  - intros g i a _ _. apply precedes_nil.
  - intros s1 s2 Hreach [g' Hexec] IH g i a Hg Ha.
    destruct (exec_Some s1 s2 g' Hexec) as (i' & rest & Hpc & Hhist & _).
    rewrite Hhist. apply precedes_snoc; [|exact (IH g i a Hg Ha)].
    intros Heq. injection Heq as -> ->.
    apply (inv_started s1 (Inv_reachable s1 Hreach) g a Hg); [|exact Ha].
    rewrite Hpc. eexists. reflexivity.
Qed.

Lemma bind_Ret_inv {A B : Type} (m : M A) (f : A -> M B) (st st' : State) (b : B) :
  (m ≫= f) st = (Ret b, st') ->
  exists a st1, m st = (Ret a, st1) /\ f a st1 = (Ret b, st').
Proof.
  unfold mbind, M_bind. destruct (m st) as [[a|msg|code] st1]; intros H;
    [exists a, st1; split; [reflexivity | exact H] | discriminate H..].
Qed.


Lemma neverExits_total {A : Type} (m : M A) :
  (forall st, exists a, (m st).1 = Ret a) -> neverExits m.
Proof. intros Hm st code. destruct (Hm st) as [a ->]. discriminate. Qed.





Lemma trace_of_onlyTraces {A : Type} (m : M A) (st : State) :
  onlyTraces m -> forall e, e ∈ trace st -> e ∈ trace (m st).2.
Proof.
  intros Hm e He. destruct (Hm st) as [new ->].
  cbn [withRegistry trace]. apply elem_of_app. left. exact He.
Qed.

(** X25: [main] never gets past [wg.Wait()] and so never calls
    [waitForTerminationSignal]: in no reachable state of the goroutines has
    either step been taken, because the heartbeat goroutine loops for ever
    and never calls [wg.Done()]. *)
Theorem main_never_reaches_shutdown (s : Sched) :
  reachable s ->
  ((GMain, IWait) ∉ history s) /\ ((GMain, IWaitForTerminationSignal) ∉ history s).
Proof. apply main_blocks_at_Wait. Qed.

Lemma main_never_reaches_shutdown_witness :
  reachable (afterSchedule everythingStarted)
  /\ length (history (afterSchedule everythingStarted)) = 21%nat
  /\ ((GMain, IWait) ∉ history (afterSchedule everythingStarted)).
Proof.
  pose proof (afterSchedule_reachable everythingStarted) as Hreach.
  split; [exact Hreach|]. split; [reflexivity|].
  exact (proj1 (main_never_reaches_shutdown _ Hreach)).
Defined.

(** X26: no goroutine that [main] starts takes a step before the resources
    are initialised and published: every step of the registry, monitor and
    heartbeat goroutines comes after each step of the resource
    initialisation, in every reachable state. *)
Theorem resources_ready_before_any_goroutine (s : Sched) (g : Goroutine)
    (i : Instr) (a : Goroutine * Instr) :
  reachable s -> g <> GMain -> a ∈ resourceInit -> precedes a (g, i) (history s).
Proof. intros Hreach. apply resources_before_goroutines, Hreach. Qed.

Lemma resources_ready_before_any_goroutine_witness :
  reachable (afterSchedule everythingStarted)
  /\ precedes (GMain, ISetComponents) (GMonitor, IStartMonitorServer)
       (history (afterSchedule everythingStarted)).
Proof.
  pose proof (afterSchedule_reachable everythingStarted) as Hreach.
  split; [exact Hreach|].
  apply (resources_ready_before_any_goroutine _ GMonitor IStartMonitorServer
           (GMain, ISetComponents) Hreach); [discriminate|].
  apply (bool_decide_unpack _). vm_compute. exact I.
Defined.

(** X27: when the global configuration cannot be loaded, [main] logs the
    failure and ends the process with exit code 1 before any resource is
    initialised: nothing but the trace is changed. *)
Theorem config_load_failure_is_fatal (ext : External) (sx : StartupExternal)
    (err : error) (st : State) :
  LoadGlobalConfig sx = inr err ->
  mainResources ext sx st
  = (Exit 1,
     withRegistry st (ActiveMQs st)
       (trace st ++ [Log LError 56 ("Failed to load global configuration: " +:+ err)])).
Proof.
  intros Hload. unfold mainResources. rewrite Hload. reflexivity.
Qed.

Lemma config_load_failure_is_fatal_witness :
  mainResources (world (inl twoBrokersFile)) (startup (inr "no config") (None, None))
    emptyState
  = (Exit 1,
     withRegistry emptyState []
       [Log LError 56 "Failed to load global configuration: no config"]).
Proof.
  exact (config_load_failure_is_fatal (world (inl twoBrokersFile))
           (startup (inr "no config") (None, None)) "no config" emptyState eq_refl).
Defined.


Lemma mainResources_returns (ext : External) (sx : StartupExternal)
    (gconfig c : LoadedConfig) (st st' : State) :
  LoadGlobalConfig sx = inl gconfig ->
  mainResources ext sx st = (Ret c, st') ->
  exists DB st1 docDB st2,
    c = gconfig
    /\ initializeDatabase ext (loaded gconfig) st = (Ret DB, st1)
    /\ initializedDocuments sx gconfig
         (when (bool_decide (DB = None))
            (ilog_Error 67 "Database connection error") st1).2
       = (Ret docDB, st2)
    /\ nodecomponent st'
       = {| nc_DB := DB; nc_DocDB := docDB;
            nc_IACMessageBusClient := (iacmb_Connect sx).1 |}
    /\ (DB = None -> Log LError 67 "Database connection error" ∈ trace st')
    /\ (docDB = None -> Log LError 72 "MongoDB connection error!" ∈ trace st').
Proof.
  intros Hload Hrun.
  unfold mainResources in Hrun. rewrite Hload in Hrun.
  cbn zeta in Hrun.
  apply bind_Ret_inv in Hrun as (DB & st1 & Hdb & Hrun).
  apply bind_Ret_inv in Hrun as ([] & st1' & Hwhen1 & Hrun).
  apply bind_Ret_inv in Hrun as (docDB & st2 & Hdoc & Hrun).
  apply bind_Ret_inv in Hrun as ([] & st2' & Hwhen2 & Hrun).
  destruct (iacmb_Connect sx) as [bus err] eqn:Hbus.
  apply bind_Ret_inv in Hrun as ([] & st3 & Hlog & Hrun).
  apply bind_Ret_inv in Hrun as ([] & st4 & Hset & Hrun).
  injection Hrun as <- <-. injection Hset as <-.
  assert (Hst1' : st1' = (when (bool_decide (DB = None))
                            (ilog_Error 67 "Database connection error") st1).2)
    by (rewrite Hwhen1; reflexivity).
  assert (Hst3 : st3 = (logIfError 77 "Failed to connect to IAC Message Bus: " err
                          st2').2)
    by (rewrite Hlog; reflexivity).
  assert (Hst2' : st2' = (when (bool_decide (docDB = None))
                            (ilog_Error 72 "MongoDB connection error!") st2).2)
    by (rewrite Hwhen2; reflexivity).
  assert (Hst2 : st2 = (initializedDocuments sx gconfig st1').2)
    by (rewrite Hdoc; reflexivity).
  exists DB, st1, docDB, st2.
  split; [reflexivity|]. split; [exact Hdb|].
  split; [rewrite <- Hst1'; exact Hdoc|].
  split; [reflexivity|].
  cbn [trace]. split.
  + intros ->. rewrite Hst3.
    apply trace_of_onlyTraces; [apply onlyTraces_logIfError|].
    rewrite Hst2'.
    apply trace_of_onlyTraces;
      [apply onlyTraces_when, onlyTraces_emit|].
    rewrite Hst2.
    apply trace_of_onlyTraces; [apply initializedDocuments_onlyTraces|].
    rewrite Hst1'. cbn. apply elem_of_app. right. left.
  + intros ->. rewrite Hst3.
    apply trace_of_onlyTraces; [apply onlyTraces_logIfError|].
    rewrite Hst2'. cbn. apply elem_of_app. right. left.
Qed.



(** X29: a start-up without document store does not survive its first
    heartbeat.  When the document-store section of the configuration is nil,
    the resource phase of [main] returns with a nil document-store handle in
    [nodecomponent]; and with a nil handle there, whatever the reason, the
    first tick of the heartbeat goroutine panics before sending anything. *)
Theorem heartbeat_panics_without_document_store (ext : External)
    (sx : StartupExternal) (gconfig : LoadedConfig) (st st' : State) :
  LoadGlobalConfig sx = inl gconfig ->
  mainResources ext sx st = (Ret gconfig, st') ->
  (DocumentConfig_nil gconfig = true -> nc_DocDB (nodecomponent st') = None)
  /\ (nc_DocDB (nodecomponent st') = None ->
      firstHeartBeat ext gconfig st'
      = (Panic "invalid memory address or nil pointer dereference", st')).
Proof.
  intros Hload Hrun. split.
  - intros Hnil.
    destruct (mainResources_returns ext sx gconfig gconfig st st' Hload Hrun)
      as (DB & st1 & docDB & st2 & _ & _ & Hdoc & Hnc & _).
    rewrite Hnc. cbn [nc_DocDB].
    unfold initializedDocuments in Hdoc. rewrite Hnil in Hdoc.
    injection Hdoc as <- _. reflexivity.
  - intros Hnone. unfold firstHeartBeat, mbind, M_bind, get.
    rewrite Hnone. reflexivity.
Qed.

Lemma heartbeat_panics_without_document_store_witness :
  mainResources crowdedWorld degradedStartup emptyState
  = (Ret degradedConfig, (mainResources crowdedWorld degradedStartup emptyState).2)
  /\ firstHeartBeat crowdedWorld degradedConfig
       (mainResources crowdedWorld degradedStartup emptyState).2
     = (Panic "invalid memory address or nil pointer dereference",
        (mainResources crowdedWorld degradedStartup emptyState).2).
Proof.
  assert (Hrun : mainResources crowdedWorld degradedStartup emptyState
                 = (Ret degradedConfig,
                    (mainResources crowdedWorld degradedStartup emptyState).2))
    by reflexivity.
  split; [exact Hrun|].
  destruct (heartbeat_panics_without_document_store crowdedWorld degradedStartup
              degradedConfig emptyState _ eq_refl Hrun) as [Hnil Hpanic].
  exact (Hpanic (Hnil eq_refl)).
Defined.
